(** * Package evaluator ([src/function_app.py]): model and properties

    The repository holds one function, [check_package_oversized], registered
    as a remote tool.  It decodes a JSON document, reads four optional
    fields of its [arguments] map, coerces them with Python's [float], applies
    five threshold rules and serialises a verdict.

    The development is organised as follows.
    - [Binary64]: Python floats, as IEEE-754 binary64 values of the Standard
      Library's [SpecFloat] (no axioms, everything computes).
    - [Py]: the fragment of the Python object model that the function
      touches (values, exception classes, [dict.get], [float]) and the
      monad of computations that may raise and may write to the log.
    - [Runtime]: the interface of the library calls whose results are taken
      as given ([json.loads], [json.dumps], [float] on a [str], [str] of a
      value inside an f-string).
    - the function itself, block by block, in source order;
    - the properties. *)

From Stdlib Require Import ZArith QArith Qpower List String Bool Lia.
From Stdlib Require Import Floats.SpecFloat.
From ExtLib Require Import Structures.Monad Structures.MonadExc.
Import ListNotations.
Import MonadNotation.

#[local] Set Warnings "-register-all".

Close Scope Q_scope.

Local Open Scope string_scope.
Local Open Scope monad_scope.

(** ** Python floats *)

Module Binary64.

Definition float : Type := spec_float.

Definition prec : Z := 53.
Definition emax : Z := 1024.

(** Being a binary64 value: a canonical mantissa and an exponent in range. *)
Definition is_binary64 (x : float) : bool := valid_binary prec emax x.

(** The double nearest to an integer, ties to even; an integer beyond the
    range rounds to an infinity. *)
Definition float_of_Z (n : Z) : float := binary_normalize prec emax n 0 false.

(** [x + y] *)
Definition fadd (x y : float) : float := SFadd prec emax x y.

(** [x >= y] and [x > y]; both are false as soon as one side is a NaN. *)
Definition fge (x y : float) : bool := SFleb y x.
Definition fgt (x y : float) : bool := SFltb y x.

(** [x < y] and [x <= y], used to state the properties. *)
Definition flt (x y : float) : bool := SFltb x y.
Definition fle (x y : float) : bool := SFleb x y.

Definition is_infinite (x : float) : bool :=
  match x with S754_infinity _ => true | _ => false end.

End Binary64.
Import Binary64.

(** ** The Python fragment *)

Module Py.

(** Values that [json.loads] can build, which are also the values handed
    to [json.dumps].  A [dict] is kept as the list of its entries in
    insertion order: the order is what [json.dumps] prints. *)
Inductive pyval : Type :=
| PyNone
| PyBool (b : bool)
| PyInt (n : Z)
| PyFloat (x : float)
| PyStr (s : string)
| PyList (items : list pyval)
| PyDict (entries : list (string * pyval)).

(** [type(v).__name__] *)
Definition type_name (v : pyval) : string :=
  match v with
  | PyNone => "NoneType"
  | PyBool _ => "bool"
  | PyInt _ => "int"
  | PyFloat _ => "float"
  | PyStr _ => "str"
  | PyList _ => "list"
  | PyDict _ => "dict"
  end.

(** The exception classes in play.  Every one of them derives from
    [Exception]; [json.JSONDecodeError] derives from [ValueError]. *)
Inductive exn_class : Type :=
| Exception
| ValueError
| JSONDecodeError
| TypeError
| OverflowError
| AttributeError
| RecursionError.

Definition exn_class_eqb (c d : exn_class) : bool :=
  match c, d with
  | Exception, Exception
  | ValueError, ValueError
  | JSONDecodeError, JSONDecodeError
  | TypeError, TypeError
  | OverflowError, OverflowError
  | AttributeError, AttributeError
  | RecursionError, RecursionError => true
  | _, _ => false
  end.

Definition subclass (c d : exn_class) : bool :=
  match d with
  | Exception => true
  | ValueError => exn_class_eqb c ValueError || exn_class_eqb c JSONDecodeError
  | _ => exn_class_eqb c d
  end.

(** A raised exception: its class and [str(e)]. *)
Record exn : Type := mkExn { exn_cls : exn_class; exn_str : string }.

Definition isinstance (e : exn) (c : exn_class) : bool := subclass (exn_cls e) c.

(** The outcome of an expression: a value, or an exception on its way up. *)
Inductive result (A : Type) : Type :=
| Ok (a : A)
| Raise (e : exn).
Arguments Ok {A} a.
Arguments Raise {A} e.

(** Records handed to the [logging] module, oldest first. *)
Inductive level : Type := INFO | ERROR.
Definition log : Type := list (level * string).

(** A computation: it starts from the log written so far and ends with an
    outcome and the log as it then stands.  What was logged before an
    exception stays logged. *)
Definition M (A : Type) : Type := log -> result A * log.

#[export] Instance Monad_result : Monad result :=
  {| ret := fun _ a => Ok a;
     bind := fun _ _ c k => match c with Ok a => k a | Raise e => Raise e end |}.

#[export] Instance Exc_result : MonadExc exn result :=
  {| raise := fun _ e => Raise e;
     catch := fun _ c h => match c with Ok a => Ok a | Raise e => h e end |}.

#[export] Instance Monad_M : Monad M :=
  {| ret := fun _ a => fun l => (Ok a, l);
     bind := fun _ _ c k => fun l =>
               match c l with
               | (Ok a, l') => k a l'
               | (Raise e, l') => (Raise e, l')
               end |}.

(** [try: c except: h] *)
#[export] Instance Exc_M : MonadExc exn M :=
  {| raise := fun _ e => fun l => (Raise e, l);
     catch := fun _ c h => fun l =>
                match c l with
                | (Ok a, l') => (Ok a, l')
                | (Raise e, l') => h e l'
                end |}.

(** An expression without effect on the log. *)
Definition lift {A : Type} (r : result A) : M A := fun l => (r, l).

Definition logging_info (msg : string) : M unit := fun l => (Ok tt, (l ++ [(INFO, msg)])%list).
Definition logging_error (msg : string) : M unit := fun l => (Ok tt, (l ++ [(ERROR, msg)])%list).

(** [xs.append(x)] *)
Definition append {A : Type} (xs : list A) (x : A) : list A := (xs ++ [x])%list.

(** [d[key]] on the entries of a dict, [None] when the key is absent. *)
Fixpoint lookup (key : string) (entries : list (string * pyval)) : option pyval :=
  match entries with
  | [] => None
  | (k, v) :: rest => if String.eqb k key then Some v else lookup key rest
  end.

(** [obj.get(key, default)]: the method of a dict; any other value of
    [pyval] has no attribute [get]. *)
Definition py_get (obj : pyval) (key : string) (default : pyval) : result pyval :=
  match obj with
  | PyDict entries =>
      match lookup key entries with
      | Some v => Ok v
      | None => Ok default
      end
  | _ => Raise (mkExn AttributeError
                  ("'" ++ type_name obj ++ "' object has no attribute 'get'"))
  end.

(** [float(n)] for an int: the nearest double, [OverflowError] when that
    is out of range. *)
Definition float_of_int (n : Z) : result float :=
  let x := float_of_Z n in
  if is_infinite x
  then Raise (mkExn OverflowError "int too large to convert to float")
  else Ok x.

End Py.
Import Py.

(** ** Library calls taken as given

    Their text-level behaviour is the interpreter's; the function is
    verified for every behaviour of these four calls. *)
Class Runtime : Type := {
  (** [json.loads(s)]: the decoded document, or the exception raised. *)
  json_loads : string -> result pyval;
  (** [json.dumps(v)] *)
  json_dumps : pyval -> string;
  (** [float(s)] for a [str]: the number read, [None] for [ValueError]. *)
  float_of_str : string -> option float;
  (** [str(v)], which is what [f"{v}"] interpolates. *)
  py_str : pyval -> string
}.

Section Evaluator.

Context {rt : Runtime}.

(** [float(v)].  A bool is an int; a str is parsed; [None], lists and
    dicts are rejected with [TypeError].  The text of the [ValueError] and
    of the [TypeError] is never read: the only call site is inside the
    inner [try], whose handler takes both and drops them. *)
Definition py_float (v : pyval) : result float :=
  match v with
  | PyFloat x => Ok x
  | PyInt n => float_of_int n
  | PyBool b => float_of_int (if b then 1 else 0)
  | PyStr s =>
      match float_of_str s with
      | Some x => Ok x
      | None => Raise (mkExn ValueError
                         ("could not convert string to float: '" ++ s ++ "'"))
      end
  | _ => Raise (mkExn TypeError
                  ("float() argument must be a string or a real number, not '"
                     ++ type_name v ++ "'"))
  end.

(** Lines 59-65: decode the context and read the four raw fields. *)
Definition read_fields (context : string) : result (pyval * pyval * pyval * pyval) :=
  content <- json_loads context ;;
  args <- py_get content "arguments" (PyDict []) ;;
  length <- py_get args "length" (PyInt 0) ;;
  width <- py_get args "width" (PyInt 0) ;;
  height <- py_get args "height" (PyInt 0) ;;
  weight <- py_get args "weight" (PyInt 0) ;;
  ret (length, width, height, weight).

(** Lines 69-72: the body of the inner [try]. *)
Definition to_floats (raw : pyval * pyval * pyval * pyval)
  : result (float * float * float * float) :=
  let '(length, width, height, weight) := raw in
  length <- py_float length ;;
  width <- py_float width ;;
  height <- py_float height ;;
  weight <- py_float weight ;;
  ret (length, width, height, weight).

(** Lines 80-116: the rules and the response. *)
Definition build_result (length width height weight : float) : pyval :=
  let reasons : list string := [] in
  let is_oversized := false in
  let '(is_oversized, reasons) :=
    if fge weight (float_of_Z 5000)
    then (true, append reasons ("Weight (" ++ py_str (PyFloat weight) ++ ") is >= 5000 grams"))
    else (is_oversized, reasons) in
  let '(is_oversized, reasons) :=
    if fgt length (float_of_Z 60)
    then (true, append reasons ("Length (" ++ py_str (PyFloat length) ++ ") is > 60 inches"))
    else (is_oversized, reasons) in
  let '(is_oversized, reasons) :=
    if fgt width (float_of_Z 60)
    then (true, append reasons ("Width (" ++ py_str (PyFloat width) ++ ") is > 60 inches"))
    else (is_oversized, reasons) in
  let '(is_oversized, reasons) :=
    if fgt height (float_of_Z 60)
    then (true, append reasons ("Height (" ++ py_str (PyFloat height) ++ ") is > 60 inches"))
    else (is_oversized, reasons) in
  let total_dimensions := fadd (fadd length width) height in
  let '(is_oversized, reasons) :=
    if fgt total_dimensions (float_of_Z 150)
    then (true, append reasons ("Total dimensions (" ++ py_str (PyFloat total_dimensions)
                                     ++ ") is > 150 inches"))
    else (is_oversized, reasons) in
  PyDict [ ("oversized", PyBool is_oversized);
           ("length", PyFloat length);
           ("width", PyFloat width);
           ("height", PyFloat height);
           ("weight", PyFloat weight);
           ("total_dimensions", PyFloat total_dimensions);
           ("reasoning",
             PyList (map PyStr (if is_oversized then reasons
                                else ["Package meets all size and weight requirements"]))) ].

(** Lines 57-131, up to the serialisation: the dict that the [return]
    reached passes to [json.dumps].  The early [return] of the inner
    handler is the left injection. *)
Definition check_package_oversized_payload (context : string) : M pyval :=
  catch
    (raw <- lift (read_fields context) ;;
     coerced <- catch
                  (values <- lift (to_floats raw) ;; ret (inr values))
                  (fun e =>
                     if isinstance e ValueError || isinstance e TypeError
                     then ret (inl (PyDict
                            [ ("oversized", PyBool false);
                              ("error", PyStr "Invalid input: All dimensions and weight must be numeric values.") ]))
                     else raise e) ;;
     match coerced with
     | inl response => ret response
     | inr (length, width, height, weight) =>
         let result := build_result length width height weight in
         logging_info ("Package check result: " ++ py_str result) ;;
         ret result
     end)
    (fun e =>
       if isinstance e JSONDecodeError
       then ret (PyDict [ ("oversized", PyBool false);
                          ("error", PyStr "Invalid JSON format in context") ])
       else if isinstance e Exception
       then
         logging_error ("Error checking package: " ++ exn_str e) ;;
         ret (PyDict [ ("oversized", PyBool false);
                       ("error", PyStr ("Error processing package check: " ++ exn_str e)) ])
       else raise e).

(** The function: every [return] serialises its dict.  [json.dumps] does
    not raise on these dicts, which hold bools, floats, strings and a list
    of strings, so that serialising after the handlers is serialising
    inside them. *)
Definition check_package_oversized (context : string) : M string :=
  payload <- check_package_oversized_payload context ;;
  ret (json_dumps payload).

(** ** Vocabulary of the properties *)

(** The four fields after coercion, when decoding, reading and coercion
    all succeed. *)
Definition coerced_fields (context : string) : result (float * float * float * float) :=
  raw <- read_fields context ;;
  to_floats raw.

(** The reason attached to each rule, and the message of a package within
    every limit. *)
Definition weight_reason (weight : float) : string :=
  "Weight (" ++ py_str (PyFloat weight) ++ ") is >= 5000 grams".
Definition length_reason (length : float) : string :=
  "Length (" ++ py_str (PyFloat length) ++ ") is > 60 inches".
Definition width_reason (width : float) : string :=
  "Width (" ++ py_str (PyFloat width) ++ ") is > 60 inches".
Definition height_reason (height : float) : string :=
  "Height (" ++ py_str (PyFloat height) ++ ") is > 60 inches".
Definition total_reason (total : float) : string :=
  "Total dimensions (" ++ py_str (PyFloat total) ++ ") is > 150 inches".
Definition meets_requirements : string :=
  "Package meets all size and weight requirements".

(** The rule table as the specification lists it: each rule is its
    condition on the coerced fields and its reason, in the fixed order
    weight, length, width, height, total dimensions. *)
Definition rules (length width height weight : float) : list (bool * string) :=
  let total := fadd (fadd length width) height in
  [ (fge weight (float_of_Z 5000), weight_reason weight);
    (fgt length (float_of_Z 60), length_reason length);
    (fgt width (float_of_Z 60), width_reason width);
    (fgt height (float_of_Z 60), height_reason height);
    (fgt total (float_of_Z 150), total_reason total) ].

(** The reasons of the rules that trigger, in table order. *)
Definition triggered (rs : list (bool * string)) : list string :=
  map snd (filter fst rs).

Definition any_triggered (rs : list (bool * string)) : bool := existsb fst rs.

(** The reasoning of a result: the reasons of the rules that trigger, or the
    one message of a package within every limit. *)
Definition reasoning_of (rs : list (bool * string)) : list string :=
  if any_triggered rs then triggered rs else [meets_requirements].

(** A field of a response. *)
Definition field (key : string) (payload : pyval) : option pyval :=
  match payload with
  | PyDict entries => lookup key entries
  | _ => None
  end.

(** The two shapes of a response. *)
Definition EvaluationError (msg : string) : pyval :=
  PyDict [ ("oversized", PyBool false); ("error", PyStr msg) ].

Definition EvaluationResult (oversized : bool) (length width height weight total : float)
           (reasoning : list string) : pyval :=
  PyDict [ ("oversized", PyBool oversized);
           ("length", PyFloat length);
           ("width", PyFloat width);
           ("height", PyFloat height);
           ("weight", PyFloat weight);
           ("total_dimensions", PyFloat total);
           ("reasoning", PyList (map PyStr reasoning)) ].

Definition is_result (payload : pyval) : Prop :=
  exists o l w h wt t rs, payload = EvaluationResult o l w h wt t rs.

Definition is_error (payload : pyval) : Prop :=
  exists msg, payload = EvaluationError msg.

Definition non_numeric_message : string :=
  "Invalid input: All dimensions and weight must be numeric values.".
Definition invalid_json_message : string := "Invalid JSON format in context".
Definition unexpected_message (details : string) : string :=
  "Error processing package check: " ++ details.

(** What the two outer [except] clauses do with an exception. *)
Definition outer_handler (e : exn) (l : log) : result pyval * log :=
  if isinstance e JSONDecodeError
  then (Ok (EvaluationError invalid_json_message), l)
  else (Ok (EvaluationError (unexpected_message (exn_str e))),
        append l (ERROR, "Error checking package: " ++ exn_str e)).

(** The handler of the inner [try] takes these exceptions. *)
Definition guarded (e : exn) : bool := isinstance e ValueError || isinstance e TypeError.

(** A raw field that is neither a number nor a numeric string. *)
Definition non_numeric (v : pyval) : bool :=
  match v with
  | PyInt _ | PyFloat _ | PyBool _ => false
  | PyStr s => match float_of_str s with Some _ => false | None => true end
  | PyNone | PyList _ | PyDict _ => true
  end.

(** A raw field that is an int beyond the range of a float. *)
Definition too_large (v : pyval) : bool :=
  match v with
  | PyInt n => is_infinite (float_of_Z n)
  | _ => false
  end.

(** The raw fields in the order in which they are coerced. *)
Definition in_order (raw : pyval * pyval * pyval * pyval) : list pyval :=
  let '(length, width, height, weight) := raw in [length; width; height; weight].

Definition field_names : list string := ["length"; "width"; "height"; "weight"].

(** A field of the arguments as the specification reads it: a missing key
    stands for zero, a present one is coerced. *)
Definition field_or_zero (args : list (string * pyval)) (key : string) : result float :=
  match lookup key args with
  | None => Ok (S754_zero false)
  | Some v => py_float v
  end.

(** A decoded document that is not a record with a map of arguments:
    the value on which [get] is called in vain. *)
Definition not_a_record (content : pyval) : option pyval :=
  match content with
  | PyDict top =>
      match lookup "arguments" top with
      | Some (PyDict _) | None => None
      | Some other => Some other
      end
  | other => Some other
  end.

End Evaluator.

(** ** Sample inputs *)

Module Sample.

(** 4999.999, 60.001 and 150.001 as doubles. *)
Definition f4999_999 : float := S754_finite false 0x1387ffbe76c8b4 (-40).
Definition f60_001 : float := S754_finite false 0x1e0020c49ba5e3 (-47).
Definition f150_001 : float := S754_finite false 0x12c0083126e979 (-45).

(** Two floats with the same sign, mantissa and exponent. *)
Definition same_float (x y : float) : bool :=
  match x, y with
  | S754_zero s, S754_zero t => Bool.eqb s t
  | S754_infinity s, S754_infinity t => Bool.eqb s t
  | S754_nan, S754_nan => true
  | S754_finite s m e, S754_finite t n f => Bool.eqb s t && Pos.eqb m n && Z.eqb e f
  | _, _ => false
  end.

(** [str(x)] for the floats of the examples. *)
Definition float_texts : list (float * string) :=
  [ (S754_zero false, "0.0"); (float_of_Z 10, "10.0"); (float_of_Z 20, "20.0");
    (float_of_Z 30, "30.0"); (float_of_Z 50, "50.0"); (float_of_Z 60, "60.0");
    (float_of_Z 70, "70.0"); (float_of_Z 120, "120.0"); (float_of_Z 150, "150.0");
    (float_of_Z 2000, "2000.0"); (float_of_Z 5000, "5000.0"); (float_of_Z 6000, "6000.0");
    (f4999_999, "4999.999"); (f60_001, "60.001"); (f150_001, "150.001") ].

(** A runtime for worked examples: the decoder answers [document] for the
    text at hand, the numeric strings are those of the table [numerals],
    the floats of [float_texts] print as Python prints them, and any other
    value prints as its type name between angle brackets. *)
Definition runtime (document : result pyval) (numerals : list (string * float)) : Runtime :=
  {| json_loads := fun _ => document;
     json_dumps := fun v => "<" ++ type_name v ++ ">";
     float_of_str := fun s =>
       match find (fun entry => String.eqb (fst entry) s) numerals with
       | Some entry => Some (snd entry)
       | None => None
       end;
     py_str := fun v =>
       match v with
       | PyFloat x =>
           match find (fun entry => same_float (fst entry) x) float_texts with
           | Some entry => snd entry
           | None => "<float>"
           end
       | _ => "<" ++ type_name v ++ ">"
       end |}.

Definition request (args : list (string * pyval)) : result pyval :=
  Ok (PyDict [("arguments", PyDict args)]).

(** [{"length": 70, "width": 30, "height": 20, "weight": 6000}] *)
Definition heavy_and_long : result pyval :=
  request [("length", PyInt 70); ("width", PyInt 30); ("height", PyInt 20);
           ("weight", PyInt 6000)].

(** [{"length": 70, "width": 30, "height": 20, "weight": 2000}] *)
Definition long : result pyval :=
  request [("length", PyInt 70); ("width", PyInt 30); ("height", PyInt 20);
           ("weight", PyInt 2000)].

(** [{"length": 10, "width": 10, "height": 10, "weight": 10}] *)
Definition small : result pyval :=
  request [("length", PyInt 10); ("width", PyInt 10); ("height", PyInt 10);
           ("weight", PyInt 10)].

(** A one followed by four hundred zeros, written as an integer literal. *)
Definition huge : Z := 10 ^ 400.

(** [{"length": "70", "weight": "heavy"}] *)
Definition heavy_weight : result pyval :=
  request [("length", PyStr "70"); ("weight", PyStr "heavy")].

(** [{"length": 1000...000, "weight": "heavy"}] *)
Definition huge_length_heavy_weight : result pyval :=
  request [("length", PyInt huge); ("weight", PyStr "heavy")].

(** [{"width": null}] *)
Definition null_width : result pyval := request [("width", PyNone)].

(** [{"length": 1000...000, "width": null}] *)
Definition huge_length_null_width : result pyval :=
  request [("length", PyInt huge); ("width", PyNone)].

(** [{"weight": 5000}] and [{"weight": 4999.999}] *)
Definition weight_at_limit : result pyval := request [("weight", PyInt 5000)].
Definition weight_below_limit : result pyval := request [("weight", PyFloat f4999_999)].

(** [{"length": 60, "width": 60.001, "height": 20}] *)
Definition length_at_limit : result pyval :=
  request [("length", PyInt 60); ("width", PyFloat f60_001); ("height", PyInt 20)].

(** [{"length": 50, "width": 50, "height": 50}] and
    [{"length": 50, "width": 50, "height": 50.001}] *)
Definition f50_001 : float := S754_finite false 0x190020c49ba5e3 (-47).
Definition total_at_limit : result pyval :=
  request [("length", PyInt 50); ("width", PyInt 50); ("height", PyInt 50)].
Definition total_above_limit : result pyval :=
  request [("length", PyInt 50); ("width", PyInt 50); ("height", PyFloat f50_001)].

(** The document [{}]: no arguments at all. *)
Definition no_arguments : result pyval := Ok (PyDict []).

(** The document [[]]: valid JSON, not a record. *)
Definition empty_array : result pyval := Ok (PyList []).

(** A text that is not JSON. *)
Definition not_json : result pyval :=
  Raise (mkExn JSONDecodeError "Expecting value: line 1 column 1 (char 0)").

(** The text handed to the function; the sample runtimes decode it to the
    document they were built with. *)
Definition text : string := "request".

Definition numerals : list (string * float) := [("70", float_of_Z 70)].

End Sample.

(** ** The declared parameters of the tool (lines 9-41) *)

(** The class [ToolProperty]: [__init__] stores its three arguments. *)
Record ToolProperty : Type := new_ToolProperty {
  propertyName : string;
  propertyType : string;
  description : string
}.

(** [ToolProperty.to_dict] *)
Definition to_dict (self : ToolProperty) : pyval :=
  PyDict [ ("propertyName", PyStr (propertyName self));
           ("propertyType", PyStr (propertyType self));
           ("description", PyStr (description self)) ].

Definition tool_properties_package_check_object : list ToolProperty :=
  [ new_ToolProperty "length" "number" "The length of the package in inches.";
    new_ToolProperty "width" "number" "The width of the package in inches.";
    new_ToolProperty "height" "number" "The height of the package in inches.";
    new_ToolProperty "weight" "number" "The weight of the package in grams." ].

(** [json.dumps([prop.to_dict() for prop in ...])] *)
Definition tool_properties_package_check_json {rt : Runtime} : string :=
  json_dumps (PyList (map to_dict tool_properties_package_check_object)).

(** The arguments of the decorator [app.generic_trigger]. *)
Record trigger : Type := {
  arg_name : string;
  trigger_type : string;
  toolName : string;
  trigger_description : string;
  toolProperties : string
}.

Definition registration {rt : Runtime} : trigger :=
  {| arg_name := "context";
     trigger_type := "mcpToolTrigger";
     toolName := "check_package_oversized";
     trigger_description := "Check if a package is oversized based on dimensions and weight.";
     toolProperties := tool_properties_package_check_json |}.

(** ** Further vocabulary *)

Definition is_nan (x : float) : bool :=
  match x with S754_nan => true | _ => false end.

(** A float that is a zero, a negative number or the negative infinity. *)
Definition non_positive (x : float) : bool :=
  match x with
  | S754_zero _ => true
  | S754_finite s _ _ => s
  | S754_infinity s => s
  | S754_nan => false
  end.

(** The first message of a response that is an error. *)
Definition error_of (payload : pyval) : option string :=
  match field "error" payload with
  | Some (PyStr msg) => Some msg
  | _ => None
  end.

(** A field of the arguments that is an int, or is missing and stands for
    zero. *)
Definition int_field (args : list (string * pyval)) (key : string) : option Z :=
  match lookup key args with
  | None => Some 0%Z
  | Some (PyInt n) => Some n
  | Some _ => None
  end.

(** [p] followed by [n] zero bits. *)
Definition shl (p : positive) (n : nat) : positive := Nat.iter n xO p.

(** The double of sign [s] whose magnitude is the integer [p] of at most 53
    bits: the mantissa is [p] shifted up to 53 bits. *)
Definition normal (s : bool) (p : positive) : float :=
  S754_finite s (shl p (53 - Pos.to_nat (digits2_pos p))) (Zpos (digits2_pos p) - 53).

Definition signed (s : bool) (p : positive) : Z := if s then Zneg p else Zpos p.

(** The arguments of a decoded record: its entry [arguments] when that is
    a map, the empty map when the record has no such entry. *)
Definition arguments_of (content : pyval) : option (list (string * pyval)) :=
  match content with
  | PyDict top =>
      match lookup "arguments" top with
      | Some (PyDict args) => Some args
      | Some _ => None
      | None => Some []
      end
  | _ => None
  end.

(** The number that a float stands for: the rational [m * 2^e] with its
    sign; an infinity and a NaN stand for none. *)
Definition exact_value (x : float) : option Q :=
  match x with
  | S754_zero _ => Some (inject_Z 0)
  | S754_finite s m e => Some (inject_Z (signed s m) * Qpower (inject_Z 2) e)%Q
  | S754_infinity _ | S754_nan => None
  end.

Definition has_value (x : float) (q : Q) : Prop :=
  match exact_value x with
  | Some v => Qeq v q
  | None => False
  end.

(** ** More sample inputs *)

Module MoreSamples.

(** A runtime that decodes [Sample.text] to one document and every other
    text to another one; the rest is as in [Sample.runtime]. *)
Definition runtime_two (first second : result pyval) (numerals : list (string * float))
  : Runtime :=
  {| json_loads := fun s => if String.eqb s Sample.text then first else second;
     json_dumps := json_dumps (Runtime := Sample.runtime first numerals);
     float_of_str := float_of_str (Runtime := Sample.runtime first numerals);
     py_str := py_str (Runtime := Sample.runtime first numerals) |}.

Definition other_text : string := "another request".

(** [json.loads(None)] *)
Definition not_a_string : result pyval :=
  Raise (mkExn TypeError "the JSON object must be str, bytes or bytearray, not NoneType").

(** [{"length": "70", "width": 1000...000}] *)
Definition huge_width : result pyval :=
  Sample.request [("length", PyStr "70"); ("width", PyInt Sample.huge)].

(** [{"length": "70", "width": true, "height": 0}] and
    [{"length": 70.0, "width": 1}] *)
Definition spelled : result pyval :=
  Sample.request [("length", PyStr "70"); ("width", PyBool true); ("height", PyInt 0)].
Definition plain : result pyval :=
  Sample.request [("length", PyFloat (float_of_Z 70)); ("width", PyInt 1)].

(** [{"colour": "red", "length": 70, "depth": 3}] and [{"length": 70}] *)
Definition with_other_keys : result pyval :=
  Sample.request [("colour", PyStr "red"); ("length", PyInt 70); ("depth", PyInt 3)].
Definition without_other_keys : result pyval :=
  Sample.request [("length", PyInt 70)].

(** [{"length": NaN, "width": 10, "weight": NaN}] *)
Definition not_numbers : result pyval :=
  Sample.request [("length", PyFloat S754_nan); ("width", PyInt 10);
                  ("weight", PyFloat S754_nan)].

(** [{"length": -5, "width": 0, "height": -Infinity, "weight": -1}] *)
Definition below_zero : result pyval :=
  Sample.request [("length", PyInt (-5)); ("width", PyInt 0);
                  ("height", PyFloat (S754_infinity true)); ("weight", PyInt (-1))].

(** [{"height": null}] *)
Definition null_height : result pyval := Sample.request [("height", PyNone)].

(** [{"length": 9007199254740991, "width": 4, "height": -9007199254740845}]:
    the ints 2^53 - 1, 4 and -(2^53 - 147), whose sum is 150. *)
Definition cancelling : result pyval :=
  Sample.request [("length", PyInt (2 ^ 53 - 1)); ("width", PyInt 4);
                  ("height", PyInt (- (2 ^ 53 - 147)))].

End MoreSamples.

(** ** Facts about comparisons of floats *)

Module Binary64Facts.

(** Swapping the sides of a comparison reverses its answer. *)
Lemma SFcompare_swap (x y : float) :
  SFcompare y x = option_map CompOpp (SFcompare x y).
Proof.
  destruct x as [sx | sx | | sx mx ex], y as [sy | sy | | sy my ey]; simpl;
    try reflexivity;
    try (destruct sx; reflexivity);
    try (destruct sy; reflexivity);
    try (destruct sx, sy; reflexivity).
  f_equal.
  change (Pos.compare_cont Eq my mx) with (Pos.compare my mx).
  change (Pos.compare_cont Eq mx my) with (Pos.compare mx my).
  rewrite (Z.compare_antisym ex ey), (Pos.compare_antisym mx my).
  destruct sx, sy; simpl; try reflexivity;
    destruct (Z.compare ex ey); simpl; reflexivity.
Qed.

(** [x < y] excludes [x >= y]. *)
Lemma flt_not_fge (x y : float) : flt x y = true -> fge x y = false.
Proof.
  unfold flt, fge, SFltb, SFleb. rewrite (SFcompare_swap x y).
  destruct (SFcompare x y) as [[ | | ] | ]; simpl; congruence.
Qed.

(** [x <= y] excludes [x > y]. *)
Lemma fle_not_fgt (x y : float) : fle x y = true -> fgt x y = false.
Proof.
  unfold fle, fgt, SFltb, SFleb. rewrite (SFcompare_swap x y).
  destruct (SFcompare x y) as [[ | | ] | ]; simpl; congruence.
Qed.

(** The thresholds and the sample values are binary64 values, and the
    sample values lie where their names say. *)
Lemma thresholds_binary64 :
  is_binary64 (float_of_Z 5000) = true /\
  is_binary64 (float_of_Z 60) = true /\
  is_binary64 (float_of_Z 150) = true.
Proof. repeat split; vm_compute; reflexivity. Qed.

Lemma samples_binary64 :
  is_binary64 Sample.f4999_999 = true /\
  is_binary64 Sample.f60_001 = true /\
  is_binary64 Sample.f150_001 = true.
Proof. repeat split; vm_compute; reflexivity. Qed.

Lemma samples_ordered :
  flt Sample.f4999_999 (float_of_Z 5000) = true /\
  flt (float_of_Z 60) Sample.f60_001 = true /\
  flt (float_of_Z 150) Sample.f150_001 = true.
Proof. repeat split; vm_compute; reflexivity. Qed.

(** The largest int that [float] takes, and the first one it refuses. *)
Lemma float_of_int_range :
  float_of_int (2 ^ 1024 - 2 ^ 970 - 1)
    = Ok (S754_finite false 0x1fffffffffffff 971) /\
  float_of_int (2 ^ 1024 - 2 ^ 970)
    = Raise (mkExn OverflowError "int too large to convert to float").
Proof. split; vm_compute; reflexivity. Qed.

End Binary64Facts.
Import Binary64Facts.

(** ** The function, path by path *)

Section Paths.

Context {rt : Runtime}.

#[local] Arguments isinstance : simpl never.
#[local] Arguments String.append : simpl never.
#[local] Arguments append : simpl never.
#[local] Arguments build_result : simpl never.
#[local] Arguments EvaluationError : simpl never.

(** Every exception is an [Exception]: the last [except] clause takes
    whatever the first one leaves. *)
Lemma isinstance_Exception (e : exn) : isinstance e Exception = true.
Proof. reflexivity. Qed.

(** The response and the log on each path through the function. *)
Lemma payload_unfold (context : string) (l : log) :
  check_package_oversized_payload context l =
    match read_fields context with
    | Raise e => outer_handler e l
    | Ok raw =>
        match to_floats raw with
        | Ok (length, width, height, weight) =>
            let result := build_result length width height weight in
            (Ok result, append l (INFO, "Package check result: " ++ py_str result))
        | Raise e =>
            if guarded e
            then (Ok (EvaluationError non_numeric_message), l)
            else outer_handler e l
        end
    end.
Proof.
  unfold check_package_oversized_payload, outer_handler, guarded, lift. simpl.
  destruct (read_fields context) as [raw | e]; simpl.
  - destruct (to_floats raw) as [[[[length width] height] weight] | e]; simpl.
    + reflexivity.
    + destruct (isinstance e ValueError || isinstance e TypeError); simpl.
      * reflexivity.
      * destruct (isinstance e JSONDecodeError); reflexivity.
  - destruct (isinstance e JSONDecodeError); reflexivity.
Qed.

(** The serialised response is [json.dumps] of the payload; the function
    never lets an exception out. *)
Lemma payload_total (context : string) (l : log) :
  exists payload l', check_package_oversized_payload context l = (Ok payload, l').
Proof.
  rewrite payload_unfold. unfold outer_handler.
  destruct (read_fields context) as [raw | e].
  - destruct (to_floats raw) as [[[[length width] height] weight] | e].
    + eexists; eexists; reflexivity.
    + destruct (guarded e); [ | destruct (isinstance e JSONDecodeError)];
        eexists; eexists; reflexivity.
  - destruct (isinstance e JSONDecodeError); eexists; eexists; reflexivity.
Qed.

Lemma dumps_of_payload (context : string) (l l' : log) (payload : pyval) :
  check_package_oversized_payload context l = (Ok payload, l') ->
  check_package_oversized context l = (Ok (json_dumps payload), l').
Proof. intros H. unfold check_package_oversized. simpl. rewrite H. reflexivity. Qed.

(** The sequence of [if]s computes the rule table. *)
Lemma build_result_rules (length width height weight : float) :
  let rs := rules length width height weight in
  build_result length width height weight =
    EvaluationResult (any_triggered rs) length width height weight
      (fadd (fadd length width) height) (reasoning_of rs).
Proof.
  unfold build_result, reasoning_of, rules, any_triggered, triggered, EvaluationResult,
    weight_reason, length_reason, width_reason, height_reason, total_reason,
    meets_requirements, append.
  cbv zeta.
  destruct (fge weight (float_of_Z 5000)), (fgt length (float_of_Z 60)),
    (fgt width (float_of_Z 60)), (fgt height (float_of_Z 60)),
    (fgt (fadd (fadd length width) height) (float_of_Z 150)); reflexivity.
Qed.

(** The success path. *)
Lemma payload_success (context : string) (l : log) (length width height weight : float) :
  coerced_fields context = Ok (length, width, height, weight) ->
  let rs := rules length width height weight in
  let result :=
    EvaluationResult (any_triggered rs) length width height weight
      (fadd (fadd length width) height) (reasoning_of rs) in
  check_package_oversized_payload context l =
    (Ok result, append l (INFO, "Package check result: " ++ py_str result)).
Proof.
  intros H. rewrite payload_unfold. unfold coerced_fields in H. simpl in H.
  destruct (read_fields context) as [raw | e]; [ | discriminate].
  rewrite H. cbv zeta. rewrite build_result_rules. reflexivity.
Qed.

End Paths.

(** ** Which reasons are reported *)

Section Reasons.

Context {rt : Runtime}.

(** A reason is reported exactly when its own rule triggers: no reason can be
    mistaken for another one, nor for the default message. *)
Lemma reason_reported (length width height weight : float) :
  let total := fadd (fadd length width) height in
  let reasoning := reasoning_of (rules length width height weight) in
  (In (weight_reason weight) reasoning <-> fge weight (float_of_Z 5000) = true) /\
  (In (length_reason length) reasoning <-> fgt length (float_of_Z 60) = true) /\
  (In (width_reason width) reasoning <-> fgt width (float_of_Z 60) = true) /\
  (In (height_reason height) reasoning <-> fgt height (float_of_Z 60) = true) /\
  (In (total_reason total) reasoning <-> fgt total (float_of_Z 150) = true).
Proof.
  unfold reasoning_of, rules, any_triggered, triggered, weight_reason, length_reason,
    width_reason, height_reason, total_reason, meets_requirements.
  cbv zeta.
  destruct (fge weight (float_of_Z 5000)), (fgt length (float_of_Z 60)),
    (fgt width (float_of_Z 60)), (fgt height (float_of_Z 60)),
    (fgt (fadd (fadd length width) height) (float_of_Z 150));
    simpl; repeat split; intros; auto 10;
    repeat match goal with
           | H : _ \/ _ |- _ => destruct H
           | H : False |- _ => destruct H
           | H : String _ _ = String _ _ |- _ => discriminate H
           | H : false = true |- _ => discriminate H
           end.
Qed.

Lemma reasoning_nonempty (rs : list (bool * string)) : reasoning_of rs <> [].
Proof.
  unfold reasoning_of, any_triggered, triggered.
  induction rs as [ | [[ | ] reason] rs IH]; simpl; try discriminate.
  exact IH.
Qed.

Lemma any_triggered_iff (rs : list (bool * string)) :
  any_triggered rs = true <-> exists r, In r rs /\ fst r = true.
Proof. unfold any_triggered. apply existsb_exists. Qed.

End Reasons.

(** ** Properties of a successful evaluation *)

Section Success.

Context {rt : Runtime}.

Lemma field_oversized o length width height weight total reasoning :
  field "oversized" (EvaluationResult o length width height weight total reasoning)
    = Some (PyBool o).
Proof. reflexivity. Qed.

Lemma field_reasoning o length width height weight total reasoning :
  field "reasoning" (EvaluationResult o length width height weight total reasoning)
    = Some (PyList (map PyStr reasoning)).
Proof. reflexivity. Qed.

(** C1.  When the four fields coerce, the rules are taken in the order
    weight, length, width, height, total dimensions; the flag [oversized] is
    true exactly when some rule triggers, and then the reasoning is the list
    of the reasons of the triggered rules, in that order. *)
Theorem C1_reasons_follow_rule_order
  (context : string) (l : log) (length width height weight : float) :
  coerced_fields context = Ok (length, width, height, weight) ->
  let rs := rules length width height weight in
  exists payload l',
    check_package_oversized_payload context l = (Ok payload, l') /\
    map snd rs = [ weight_reason weight; length_reason length; width_reason width;
                   height_reason height;
                   total_reason (fadd (fadd length width) height) ] /\
    field "oversized" payload = Some (PyBool (any_triggered rs)) /\
    (field "oversized" payload = Some (PyBool true) <->
       exists r, In r rs /\ fst r = true) /\
    ((exists r, In r rs /\ fst r = true) ->
       field "reasoning" payload = Some (PyList (map PyStr (triggered rs)))).
Proof.
  intros H rs.
  eexists; eexists. split; [apply (payload_success context l _ _ _ _ H) | ].
  fold rs. split; [reflexivity | ]. rewrite field_oversized, field_reasoning.
  split; [reflexivity | ]. rewrite <- any_triggered_iff. split.
  - split.
    + intros E. now inversion E.
    + intros E. now rewrite E.
  - intros E. unfold reasoning_of. now rewrite E.
Qed.

(** C2.  The weight limit is inclusive: a weight of exactly 5000 reports the
    weight reason and makes the package oversized, a weight below 5000 does
    not report it; in general the weight reason is reported exactly when
    [weight >= 5000]. *)
Theorem C2_weight_limit_inclusive
  (context : string) (l : log) (length width height weight : float) :
  coerced_fields context = Ok (length, width, height, weight) ->
  exists oversized reasoning l',
    check_package_oversized_payload context l =
      (Ok (EvaluationResult oversized length width height weight
             (fadd (fadd length width) height) reasoning), l') /\
    (weight = float_of_Z 5000 ->
       In (weight_reason weight) reasoning /\ oversized = true) /\
    (flt weight (float_of_Z 5000) = true -> ~ In (weight_reason weight) reasoning) /\
    (In (weight_reason weight) reasoning <-> fge weight (float_of_Z 5000) = true).
Proof.
  intros H.
  eexists; eexists; eexists. split; [apply (payload_success context l _ _ _ _ H) | ].
  destruct (reason_reported length width height weight) as (Hw & _).
  cbv zeta in Hw. split; [ | split].
  - intros ->. split.
    + apply Hw. reflexivity.
    + reflexivity.
  - intros Hlt Hin. apply Hw in Hin. apply flt_not_fge in Hlt. congruence.
  - exact Hw.
Qed.

(** C3.  The limits on the dimensions are exclusive: a length, width or
    height of exactly 60 does not report its reason and one above 60 does;
    a total of exactly 150 does not report the total reason and one above
    150 does.  A rule that reports its reason makes the package oversized. *)
Theorem C3_dimension_limits_exclusive
  (context : string) (l : log) (length width height weight : float) :
  coerced_fields context = Ok (length, width, height, weight) ->
  let total := fadd (fadd length width) height in
  exists oversized reasoning l',
    check_package_oversized_payload context l =
      (Ok (EvaluationResult oversized length width height weight total reasoning), l') /\
    (length = float_of_Z 60 -> ~ In (length_reason length) reasoning) /\
    (width = float_of_Z 60 -> ~ In (width_reason width) reasoning) /\
    (height = float_of_Z 60 -> ~ In (height_reason height) reasoning) /\
    (total = float_of_Z 150 -> ~ In (total_reason total) reasoning) /\
    (flt (float_of_Z 60) length = true ->
       In (length_reason length) reasoning /\ oversized = true) /\
    (flt (float_of_Z 60) width = true ->
       In (width_reason width) reasoning /\ oversized = true) /\
    (flt (float_of_Z 60) height = true ->
       In (height_reason height) reasoning /\ oversized = true) /\
    (flt (float_of_Z 150) total = true ->
       In (total_reason total) reasoning /\ oversized = true).
Proof.
  intros H total.
  eexists; eexists; eexists. split; [apply (payload_success context l _ _ _ _ H) | ].
  destruct (reason_reported length width height weight) as (_ & Hl & Hw & Hh & Ht).
  cbv zeta in Hl, Hw, Hh, Ht. fold total in Ht |- *.
  assert (Hany : forall r, In r (rules length width height weight) -> fst r = true ->
                           any_triggered (rules length width height weight) = true).
  { intros r Hin Hr. apply any_triggered_iff. now exists r. }
  repeat split.
  - intros E Hin. apply Hl in Hin. rewrite E in Hin. discriminate Hin.
  - intros E Hin. apply Hw in Hin. rewrite E in Hin. discriminate Hin.
  - intros E Hin. apply Hh in Hin. rewrite E in Hin. discriminate Hin.
  - intros E Hin. apply Ht in Hin. rewrite E in Hin. discriminate Hin.
  - apply Hl. assumption.
  - apply (Hany (fgt length (float_of_Z 60), length_reason length));
      [simpl; tauto | assumption].
  - apply Hw. assumption.
  - apply (Hany (fgt width (float_of_Z 60), width_reason width));
      [simpl; tauto | assumption].
  - apply Hh. assumption.
  - apply (Hany (fgt height (float_of_Z 60), height_reason height));
      [simpl; tauto | assumption].
  - apply Ht. assumption.
  - apply (Hany (fgt total (float_of_Z 150), total_reason total));
      [simpl; tauto | assumption].
Qed.

(** C4.  With the weight below 5000, every dimension at most 60 and their
    sum at most 150, the package is not oversized and the reasoning is the
    single default message; and the reasoning of a successful result is
    never empty. *)
Theorem C4_within_limits
  (context : string) (l : log) (length width height weight : float) :
  coerced_fields context = Ok (length, width, height, weight) ->
  let total := fadd (fadd length width) height in
  exists oversized reasoning l',
    check_package_oversized_payload context l =
      (Ok (EvaluationResult oversized length width height weight total reasoning), l') /\
    reasoning <> [] /\
    (flt weight (float_of_Z 5000) = true ->
     fle length (float_of_Z 60) = true ->
     fle width (float_of_Z 60) = true ->
     fle height (float_of_Z 60) = true ->
     fle total (float_of_Z 150) = true ->
     oversized = false /\
     reasoning = ["Package meets all size and weight requirements"]).
Proof.
  intros H total.
  eexists; eexists; eexists. split; [apply (payload_success context l _ _ _ _ H) | ].
  split; [apply reasoning_nonempty | ].
  intros Hwt Hl Hw Hh Ht.
  apply flt_not_fge in Hwt.
  apply fle_not_fgt in Hl, Hw, Hh, Ht.
  unfold reasoning_of, any_triggered, rules. fold total.
  cbn [existsb fst]. rewrite Hwt, Hl, Hw, Hh, Ht. split; reflexivity.
Qed.

End Success.

(** ** Reading and coercing the fields *)

Section Coercion.

Context {rt : Runtime}.

(** The raw value of a field: the entry of the arguments, [0] without one. *)
Lemma py_get_field (args : list (string * pyval)) (key : string) :
  py_get (PyDict args) key (PyInt 0)
    = Ok (match lookup key args with Some v => v | None => PyInt 0 end).
Proof. unfold py_get. destruct (lookup key args); reflexivity. Qed.

(** Coercing the raw value of a field is reading it with zero for a missing
    key: [float(0)] is [0.0]. *)
Lemma py_float_field (args : list (string * pyval)) (key : string) :
  py_float (match lookup key args with Some v => v | None => PyInt 0 end)
    = field_or_zero args key.
Proof. unfold field_or_zero. destruct (lookup key args); reflexivity. Qed.

Lemma read_fields_args (context : string) (content : pyval) (args : list (string * pyval)) :
  json_loads context = Ok content ->
  py_get content "arguments" (PyDict []) = Ok (PyDict args) ->
  read_fields context =
    Ok (match lookup "length" args with Some v => v | None => PyInt 0 end,
        match lookup "width" args with Some v => v | None => PyInt 0 end,
        match lookup "height" args with Some v => v | None => PyInt 0 end,
        match lookup "weight" args with Some v => v | None => PyInt 0 end).
Proof.
  intros Hdoc Hargs. unfold read_fields.
  cbn [bind ret Monad_result]. rewrite Hdoc, Hargs, !py_get_field. reflexivity.
Qed.

Lemma coerced_fields_args (context : string) (content : pyval) (args : list (string * pyval))
      (length width height weight : float) :
  json_loads context = Ok content ->
  py_get content "arguments" (PyDict []) = Ok (PyDict args) ->
  field_or_zero args "length" = Ok length ->
  field_or_zero args "width" = Ok width ->
  field_or_zero args "height" = Ok height ->
  field_or_zero args "weight" = Ok weight ->
  coerced_fields context = Ok (length, width, height, weight).
Proof.
  intros Hdoc Hargs Hl Hw Hh Hwt. unfold coerced_fields.
  cbn [bind ret Monad_result]. rewrite (read_fields_args context content args Hdoc Hargs).
  unfold to_floats. cbn [bind ret Monad_result].
  rewrite !py_float_field, Hl, Hw, Hh, Hwt. reflexivity.
Qed.

(** The three outcomes of [float(v)]: a number; the guarded failure of a
    value that is not numeric; the overflow of an int that is too large. *)
Lemma py_float_outcome (v : pyval) :
  match py_float v with
  | Ok _ => non_numeric v = false /\ too_large v = false
  | Raise e =>
      (non_numeric v = true /\ too_large v = false /\ guarded e = true) \/
      (non_numeric v = false /\ too_large v = true /\ guarded e = false /\
       e = mkExn OverflowError "int too large to convert to float")
  end.
Proof.
  destruct v as [ | [ | ] | n | x | s | items | entries]; simpl;
    try (split; reflexivity); try (left; repeat split; reflexivity).
  - unfold float_of_int. destruct (is_infinite (float_of_Z n)).
    + right. repeat split; reflexivity.
    + split; reflexivity.
  - destruct (float_of_str s).
    + split; reflexivity.
    + left. repeat split; reflexivity.
Qed.

(** A field that is not numeric, behind fields that are not too large, makes
    the coercion fail in the guarded way. *)
Lemma to_floats_guarded (raw : pyval * pyval * pyval * pyval) (i : nat) (v : pyval) :
  nth_error (in_order raw) i = Some v ->
  non_numeric v = true ->
  (forall j u, j < i -> nth_error (in_order raw) j = Some u -> too_large u = false) ->
  exists e, to_floats raw = Raise e /\ guarded e = true.
Proof.
  destruct raw as [[[a b] c] d]. unfold in_order, to_floats.
  cbn [bind ret Monad_result].
  intros Hv Hnn Hbefore.
  assert (Ha : 0 < i -> too_large a = false) by (intros; apply (Hbefore 0); [lia | reflexivity]).
  assert (Hb : 1 < i -> too_large b = false) by (intros; apply (Hbefore 1); [lia | reflexivity]).
  assert (Hc : 2 < i -> too_large c = false) by (intros; apply (Hbefore 2); [lia | reflexivity]).
  clear Hbefore.
  pose proof (py_float_outcome a) as Oa. pose proof (py_float_outcome b) as Ob.
  pose proof (py_float_outcome c) as Oc. pose proof (py_float_outcome d) as Od.
  destruct i as [ | [ | [ | [ | i]]]]; simpl in Hv;
    try (destruct i; discriminate Hv);
    injection Hv as <-.
  - destruct (py_float a) as [x | e]; [destruct Oa; congruence | ].
    exists e. split; [reflexivity | ]. destruct Oa as [(_ & _ & G) | (N & _)]; congruence.
  - specialize (Ha ltac:(lia)).
    destruct (py_float a) as [x | e].
    + destruct (py_float b) as [y | e]; [destruct Ob; congruence | ].
      exists e. split; [reflexivity | ]. destruct Ob as [(_ & _ & G) | (N & _)]; congruence.
    + exists e. split; [reflexivity | ]. destruct Oa as [(_ & _ & G) | (_ & T & _)]; congruence.
  - specialize (Ha ltac:(lia)). specialize (Hb ltac:(lia)).
    destruct (py_float a) as [x | e].
    + destruct (py_float b) as [y | e].
      * destruct (py_float c) as [z | e]; [destruct Oc; congruence | ].
        exists e. split; [reflexivity | ].
        destruct Oc as [(_ & _ & G) | (N & _)]; congruence.
      * exists e. split; [reflexivity | ].
        destruct Ob as [(_ & _ & G) | (_ & T & _)]; congruence.
    + exists e. split; [reflexivity | ]. destruct Oa as [(_ & _ & G) | (_ & T & _)]; congruence.
  - specialize (Ha ltac:(lia)). specialize (Hb ltac:(lia)). specialize (Hc ltac:(lia)).
    destruct (py_float a) as [x | e].
    + destruct (py_float b) as [y | e].
      * destruct (py_float c) as [z | e].
        -- destruct (py_float d) as [t | e]; [destruct Od; congruence | ].
           exists e. split; [reflexivity | ].
           destruct Od as [(_ & _ & G) | (N & _)]; congruence.
        -- exists e. split; [reflexivity | ].
           destruct Oc as [(_ & _ & G) | (_ & T & _)]; congruence.
      * exists e. split; [reflexivity | ].
        destruct Ob as [(_ & _ & G) | (_ & T & _)]; congruence.
    + exists e. split; [reflexivity | ]. destruct Oa as [(_ & _ & G) | (_ & T & _)]; congruence.
Qed.

(** The response on a guarded failure of the coercion. *)
Lemma payload_guarded (context : string) (l : log) (raw : pyval * pyval * pyval * pyval)
      (e : exn) :
  read_fields context = Ok raw ->
  to_floats raw = Raise e ->
  guarded e = true ->
  check_package_oversized_payload context l = (Ok (EvaluationError non_numeric_message), l).
Proof. intros Hraw He Hg. rewrite payload_unfold, Hraw, He, Hg. reflexivity. Qed.

End Coercion.

(** ** Properties of the fields, the errors and the response *)

Section Responses.

Context {rt : Runtime}.

(** C5, amended.  If a field is neither a number nor a numeric string, and
    no field coerced before it (in the order length, width, height,
    weight) is an int too large for a float, the response is the error
    with the message about numeric values, nothing else is returned and
    nothing is logged. *)
Theorem C5_non_numeric_field_rejected
  (context : string) (l : log) (raw : pyval * pyval * pyval * pyval) (i : nat) (v : pyval) :
  read_fields context = Ok raw ->
  nth_error (in_order raw) i = Some v ->
  non_numeric v = true ->
  (forall j u, j < i -> nth_error (in_order raw) j = Some u -> too_large u = false) ->
  check_package_oversized_payload context l =
    (Ok (PyDict [ ("oversized", PyBool false);
                  ("error", PyStr "Invalid input: All dimensions and weight must be numeric values.") ]),
     l).
Proof.
  intros Hraw Hv Hnn Hbefore.
  destruct (to_floats_guarded raw i v Hv Hnn Hbefore) as (e & He & Hg).
  exact (payload_guarded context l raw e Hraw He Hg).
Qed.

(** C9, amended.  If one of the four fields is present with the value
    [null], and no field coerced before it is an int too large for a float,
    the response is the error with the message about numeric values, not
    the one of an unexpected failure. *)
Theorem C9_null_field_rejected
  (context : string) (l : log) (content : pyval) (args : list (string * pyval))
  (i : nat) (key : string) :
  json_loads context = Ok content ->
  py_get content "arguments" (PyDict []) = Ok (PyDict args) ->
  nth_error field_names i = Some key ->
  lookup key args = Some PyNone ->
  (forall j k u, j < i -> nth_error field_names j = Some k ->
                 lookup k args = Some u -> too_large u = false) ->
  check_package_oversized_payload context l =
    (Ok (EvaluationError "Invalid input: All dimensions and weight must be numeric values."), l).
Proof.
  intros Hdoc Hargs Hkey Hnull Hbefore.
  pose proof (read_fields_args context content args Hdoc Hargs) as Hraw.
  set (raw := (match lookup "length" args with Some v => v | None => PyInt 0 end,
               match lookup "width" args with Some v => v | None => PyInt 0 end,
               match lookup "height" args with Some v => v | None => PyInt 0 end,
               match lookup "weight" args with Some v => v | None => PyInt 0 end)) in Hraw.
  assert (Hnth : forall j k, nth_error field_names j = Some k ->
                 nth_error (in_order raw) j
                   = Some (match lookup k args with Some v => v | None => PyInt 0 end)).
  { intros j k Hj. unfold field_names in Hj.
    destruct j as [ | [ | [ | [ | j]]]]; simpl in Hj;
      try (destruct j; discriminate Hj); injection Hj as <-; reflexivity. }
  assert (Hlen : forall j u, nth_error (in_order raw) j = Some u ->
                 exists k, nth_error field_names j = Some k).
  { intros j u Hj.
    destruct j as [ | [ | [ | [ | j]]]]; simpl in Hj;
      try (destruct j; discriminate Hj); eexists; reflexivity. }
  destruct (to_floats_guarded raw i PyNone) as (e & He & Hg).
  - rewrite (Hnth i key Hkey), Hnull. reflexivity.
  - reflexivity.
  - intros j u Hj Hu. destruct (Hlen j u Hu) as (k & Hk).
    rewrite (Hnth j k Hk) in Hu. injection Hu as <-.
    destruct (lookup k args) as [w | ] eqn:E.
    + exact (Hbefore j k w Hj Hk E).
    + reflexivity.
  - exact (payload_guarded context l raw e Hraw He Hg).
Qed.

(** C6, amended.  A text that is not valid JSON gets the error with the
    message about the JSON format.  A text that is valid JSON but is not an
    object, or whose [arguments] entry is not an object, gets the error of
    an unexpected failure, which names the type that has no [get]. *)
Theorem C6_malformed_input_messages (context : string) (l : log) :
  (forall e,
     json_loads context = Raise e ->
     isinstance e JSONDecodeError = true ->
     check_package_oversized_payload context l =
       (Ok (EvaluationError "Invalid JSON format in context"), l)) /\
  (forall content bad,
     json_loads context = Ok content ->
     not_a_record content = Some bad ->
     let details := "'" ++ type_name bad ++ "' object has no attribute 'get'" in
     check_package_oversized_payload context l =
       (Ok (EvaluationError ("Error processing package check: " ++ details)),
        append l (ERROR, "Error checking package: " ++ details))).
Proof.
  split.
  - intros e Hdoc He. rewrite payload_unfold. unfold read_fields.
    cbn [bind ret Monad_result]. rewrite Hdoc. unfold outer_handler. rewrite He. reflexivity.
  - intros content bad Hdoc Hbad details. rewrite payload_unfold. unfold read_fields.
    cbn [bind ret Monad_result]. rewrite Hdoc.
    destruct content as [ | b | n | x | s | items | top]; simpl in Hbad;
      try (injection Hbad as <-; reflexivity).
    unfold py_get at 1.
    destruct (lookup "arguments" top) as [[ | b | n | x | s | items | entries] | ];
      try discriminate Hbad; injection Hbad as <-; reflexivity.
Qed.

(** C8.  Every call returns, and what it returns is the serialisation of
    exactly one of a result and an error; an error has [oversized] false and
    holds the two fields [oversized] and [error] only. *)
Theorem C8_exactly_one_shape (context : string) (l : log) :
  exists payload l',
    check_package_oversized context l = (Ok (json_dumps payload), l') /\
    check_package_oversized_payload context l = (Ok payload, l') /\
    ((is_result payload /\ ~ is_error payload) \/
     (is_error payload /\ ~ is_result payload)) /\
    (is_error payload ->
     (exists msg, payload = PyDict [("oversized", PyBool false); ("error", PyStr msg)]) /\
     field "oversized" payload = Some (PyBool false) /\
     field "length" payload = None /\
     field "width" payload = None /\
     field "height" payload = None /\
     field "weight" payload = None /\
     field "total_dimensions" payload = None /\
     field "reasoning" payload = None).
Proof.
  assert (Herr : forall msg,
             (is_error (EvaluationError msg) /\ ~ is_result (EvaluationError msg))).
  { intros msg. split; [exists msg; reflexivity | ].
    intros (o & a & b & c & d & t & rs & E). discriminate E. }
  assert (Hres : forall o a b c d t rs,
             is_result (EvaluationResult o a b c d t rs) /\
             ~ is_error (EvaluationResult o a b c d t rs)).
  { intros. split; [unfold is_result; repeat eexists | ].
    intros (msg & E). discriminate E. }
  assert (Hfields : forall payload, is_error payload ->
     (exists msg, payload = PyDict [("oversized", PyBool false); ("error", PyStr msg)]) /\
     field "oversized" payload = Some (PyBool false) /\
     field "length" payload = None /\ field "width" payload = None /\
     field "height" payload = None /\ field "weight" payload = None /\
     field "total_dimensions" payload = None /\ field "reasoning" payload = None).
  { intros payload (msg & ->). split; [exists msg; reflexivity | repeat split]. }
  assert (Hshape : exists payload l',
             check_package_oversized_payload context l = (Ok payload, l') /\
             ((is_result payload /\ ~ is_error payload) \/
              (is_error payload /\ ~ is_result payload))).
  { rewrite payload_unfold. unfold outer_handler.
    destruct (read_fields context) as [raw | e].
    - destruct (to_floats raw) as [[[[length width] height] weight] | e].
      + cbv zeta. rewrite build_result_rules. eexists; eexists.
        split; [reflexivity | left; apply Hres].
      + destruct (guarded e); [ | destruct (isinstance e JSONDecodeError)];
          eexists; eexists; (split; [reflexivity | right; apply Herr]).
    - destruct (isinstance e JSONDecodeError);
        eexists; eexists; (split; [reflexivity | right; apply Herr]). }
  destruct Hshape as (payload & l' & Hrun & Hshape).
  exists payload, l'. split; [exact (dumps_of_payload context l l' payload Hrun) | ].
  split; [exact Hrun | ]. split; [exact Hshape | apply Hfields].
Qed.

(** C10.  The output is a function of the context alone: there is one output
    string that the call returns from every state of the log, so two calls
    on the same string return the same string; logging only adds records
    to the log. *)
Theorem C10_output_depends_on_input_only (context : string) :
  exists (output : string) (records : log),
    (forall l, check_package_oversized context l = (Ok output, (l ++ records)%list)) /\
    (forall l1 l2,
       fst (check_package_oversized context l1) = fst (check_package_oversized context l2)).
Proof.
  assert (H : exists (payload : pyval) (records : log),
             forall l, check_package_oversized_payload context l
                       = (Ok payload, (l ++ records)%list)).
  { destruct (read_fields context) as [raw | e] eqn:Hraw.
    - destruct (to_floats raw) as [[[[length width] height] weight] | e] eqn:Hval.
      + eexists; eexists. intros l. rewrite payload_unfold, Hraw, Hval. reflexivity.
      + destruct (guarded e) eqn:Hg.
        * exists (EvaluationError non_numeric_message), []. intros l.
          rewrite payload_unfold, Hraw, Hval, Hg, app_nil_r. reflexivity.
        * destruct (isinstance e JSONDecodeError) eqn:Hj.
          -- exists (EvaluationError invalid_json_message), []. intros l.
             rewrite payload_unfold, Hraw, Hval, Hg. unfold outer_handler.
             rewrite Hj, app_nil_r. reflexivity.
          -- eexists; eexists. intros l.
             rewrite payload_unfold, Hraw, Hval, Hg. unfold outer_handler.
             rewrite Hj. reflexivity.
    - destruct (isinstance e JSONDecodeError) eqn:Hj.
      + exists (EvaluationError invalid_json_message), []. intros l.
        rewrite payload_unfold, Hraw. unfold outer_handler.
        rewrite Hj, app_nil_r. reflexivity.
      + eexists; eexists. intros l.
        rewrite payload_unfold, Hraw. unfold outer_handler. rewrite Hj. reflexivity. }
  destruct H as (payload & records & H).
  exists (json_dumps payload), records.
  assert (Hout : forall l, check_package_oversized context l
                           = (Ok (json_dumps payload), (l ++ records)%list)).
  { intros l. apply dumps_of_payload. apply H. }
  split; [exact Hout | ]. intros l1 l2. now rewrite !Hout.
Qed.

End Responses.

(** ** Worked examples *)

Module Examples.

Import Sample.

(** An int too large for a float in the field coerced first ends the call
    with the error of an unexpected failure, whatever the other fields. *)
Lemma overflow_comes_first {rt : Runtime} (context : string) (l : log)
      (n : Z) (width height weight : pyval) :
  read_fields context = Ok (PyInt n, width, height, weight) ->
  too_large (PyInt n) = true ->
  check_package_oversized_payload context l =
    (Ok (EvaluationError "Error processing package check: int too large to convert to float"),
     append l (ERROR, "Error checking package: int too large to convert to float")).
Proof.
  intros Hraw Hbig. rewrite payload_unfold, Hraw.
  unfold to_floats. cbn [bind ret Monad_result].
  unfold py_float at 1, float_of_int. simpl in Hbig. rewrite Hbig. reflexivity.
Qed.

(** The two examples of the specification. *)
Example spec_example_long :
  check_package_oversized_payload (rt := runtime long []) text [] =
    (Ok (EvaluationResult true (float_of_Z 70) (float_of_Z 30) (float_of_Z 20)
           (float_of_Z 2000) (float_of_Z 120)
           ["Length (70.0) is > 60 inches"]),
     [(INFO, "Package check result: <dict>")]).
Proof. vm_compute. reflexivity. Qed.

Example spec_example_small :
  check_package_oversized_payload (rt := runtime small []) text [] =
    (Ok (EvaluationResult false (float_of_Z 10) (float_of_Z 10) (float_of_Z 10)
           (float_of_Z 10) (float_of_Z 30)
           ["Package meets all size and weight requirements"]),
     [(INFO, "Package check result: <dict>")]).
Proof. vm_compute. reflexivity. Qed.

Example sum_just_above_150 :
  fadd (fadd (float_of_Z 50) (float_of_Z 50)) f50_001 = f150_001.
Proof. vm_compute. reflexivity. Qed.

End Examples.

(** ** The properties at sample inputs *)

(** C1 at weight 6000 and length 70: both reasons, weight first. *)
Lemma C1_witness :
  exists payload l',
    check_package_oversized_payload (rt := Sample.runtime Sample.heavy_and_long [])
      Sample.text [] = (Ok payload, l') /\
    field "oversized" payload = Some (PyBool true) /\
    field "reasoning" payload =
      Some (PyList [ PyStr "Weight (6000.0) is >= 5000 grams";
                     PyStr "Length (70.0) is > 60 inches" ]).
Proof.
  pose proof (C1_reasons_follow_rule_order (rt := Sample.runtime Sample.heavy_and_long [])
                Sample.text [] (float_of_Z 70) (float_of_Z 30) (float_of_Z 20)
                (float_of_Z 6000) ltac:(vm_compute; reflexivity)) as W.
  cbv zeta in W. destruct W as (payload & l' & Hrun & _ & Hover & _ & Hreason).
  exists payload, l'. split; [exact Hrun | ]. split; [exact Hover | ].
  apply Hreason. eexists. split; [left; reflexivity | reflexivity].
Defined.

(** C2 at weight 5000, reported, and at weight 4999.999, not reported. *)
Lemma C2_witness :
  (exists reasoning l',
     check_package_oversized_payload (rt := Sample.runtime Sample.weight_at_limit [])
       Sample.text [] =
       (Ok (EvaluationResult true (S754_zero false) (S754_zero false) (S754_zero false)
              (float_of_Z 5000) (S754_zero false) reasoning), l') /\
     In "Weight (5000.0) is >= 5000 grams" reasoning) /\
  (exists oversized reasoning l',
     check_package_oversized_payload (rt := Sample.runtime Sample.weight_below_limit [])
       Sample.text [] =
       (Ok (EvaluationResult oversized (S754_zero false) (S754_zero false)
              (S754_zero false) Sample.f4999_999 (S754_zero false) reasoning), l') /\
     ~ In "Weight (4999.999) is >= 5000 grams" reasoning).
Proof.
  split.
  - destruct (C2_weight_limit_inclusive (rt := Sample.runtime Sample.weight_at_limit [])
                Sample.text [] (S754_zero false) (S754_zero false) (S754_zero false)
                (float_of_Z 5000) ltac:(vm_compute; reflexivity))
      as (oversized & reasoning & l' & Hrun & Hat & _ & _).
    destruct (Hat eq_refl) as (Hin & ->).
    exists reasoning, l'. split; [exact Hrun | exact Hin].
  - destruct (C2_weight_limit_inclusive (rt := Sample.runtime Sample.weight_below_limit [])
                Sample.text [] (S754_zero false) (S754_zero false) (S754_zero false)
                Sample.f4999_999 ltac:(vm_compute; reflexivity))
      as (oversized & reasoning & l' & Hrun & _ & Hbelow & _).
    exists oversized, reasoning, l'. split; [exact Hrun | ].
    apply Hbelow. vm_compute. reflexivity.
Defined.

(** C3 at length 60 and width 60.001, and at the totals 150 and 150.001. *)
Lemma C3_witness :
  (exists oversized reasoning l',
     check_package_oversized_payload (rt := Sample.runtime Sample.length_at_limit [])
       Sample.text [] =
       (Ok (EvaluationResult oversized (float_of_Z 60) Sample.f60_001 (float_of_Z 20)
              (S754_zero false)
              (fadd (fadd (float_of_Z 60) Sample.f60_001) (float_of_Z 20)) reasoning), l') /\
     ~ In "Length (60.0) is > 60 inches" reasoning /\
     In "Width (60.001) is > 60 inches" reasoning /\
     oversized = true) /\
  (exists oversized reasoning l',
     check_package_oversized_payload (rt := Sample.runtime Sample.total_at_limit [])
       Sample.text [] =
       (Ok (EvaluationResult oversized (float_of_Z 50) (float_of_Z 50) (float_of_Z 50)
              (S754_zero false) (float_of_Z 150) reasoning), l') /\
     ~ In "Total dimensions (150.0) is > 150 inches" reasoning) /\
  (exists reasoning l',
     check_package_oversized_payload (rt := Sample.runtime Sample.total_above_limit [])
       Sample.text [] =
       (Ok (EvaluationResult true (float_of_Z 50) (float_of_Z 50) Sample.f50_001
              (S754_zero false) Sample.f150_001 reasoning), l') /\
     In "Total dimensions (150.001) is > 150 inches" reasoning).
Proof.
  split; [ | split].
  - pose proof (C3_dimension_limits_exclusive (rt := Sample.runtime Sample.length_at_limit [])
                  Sample.text [] (float_of_Z 60) Sample.f60_001 (float_of_Z 20)
                  (S754_zero false) ltac:(vm_compute; reflexivity)) as W.
    cbv zeta in W.
    destruct W as (oversized & reasoning & l' & Hrun & Hl & _ & _ & _ & _ & Hw & _).
    exists oversized, reasoning, l'. split; [exact Hrun | ].
    split; [exact (Hl eq_refl) | ].
    exact (Hw ltac:(vm_compute; reflexivity)).
  - pose proof (C3_dimension_limits_exclusive (rt := Sample.runtime Sample.total_at_limit [])
                  Sample.text [] (float_of_Z 50) (float_of_Z 50) (float_of_Z 50)
                  (S754_zero false) ltac:(vm_compute; reflexivity)) as W.
    cbv zeta in W.
    destruct W as (oversized & reasoning & l' & Hrun & _ & _ & _ & Ht & _).
    exists oversized, reasoning, l'. split; [exact Hrun | ].
    exact (Ht ltac:(vm_compute; reflexivity)).
  - pose proof (C3_dimension_limits_exclusive (rt := Sample.runtime Sample.total_above_limit [])
                  Sample.text [] (float_of_Z 50) (float_of_Z 50) Sample.f50_001
                  (S754_zero false) ltac:(vm_compute; reflexivity)) as W.
    cbv zeta in W.
    destruct W as (oversized & reasoning & l' & Hrun & _ & _ & _ & _ & _ & _ & _ & Ht).
    destruct (Ht ltac:(vm_compute; reflexivity)) as (Hin & ->).
    exists reasoning, l'. split; [exact Hrun | exact Hin].
Defined.

(** C4 at 10, 10, 10, 10, the second example of the specification. *)
Lemma C4_witness :
  exists l',
    check_package_oversized_payload (rt := Sample.runtime Sample.small [])
      Sample.text [] =
      (Ok (EvaluationResult false (float_of_Z 10) (float_of_Z 10) (float_of_Z 10)
             (float_of_Z 10) (float_of_Z 30)
             ["Package meets all size and weight requirements"]), l').
Proof.
  pose proof (C4_within_limits (rt := Sample.runtime Sample.small [])
                Sample.text [] (float_of_Z 10) (float_of_Z 10) (float_of_Z 10)
                (float_of_Z 10) ltac:(vm_compute; reflexivity)) as W.
  cbv zeta in W. destruct W as (oversized & reasoning & l' & Hrun & _ & Hin).
  destruct Hin as (-> & ->); try (vm_compute; reflexivity).
  exists l'. exact Hrun.
Defined.

(** C5, amended, at the weight "heavy" behind the length "70". *)
Lemma C5_witness :
  check_package_oversized_payload (rt := Sample.runtime Sample.heavy_weight Sample.numerals)
    Sample.text [] =
    (Ok (PyDict [ ("oversized", PyBool false);
                  ("error", PyStr "Invalid input: All dimensions and weight must be numeric values.") ]),
     []).
Proof.
  apply (C5_non_numeric_field_rejected
           (rt := Sample.runtime Sample.heavy_weight Sample.numerals)
           Sample.text [] (PyStr "70", PyInt 0, PyInt 0, PyStr "heavy") 3 (PyStr "heavy")).
  - reflexivity.
  - reflexivity.
  - reflexivity.
  - intros j u Hj Hu.
    destruct j as [ | [ | [ | j]]]; [ | | | lia]; simpl in Hu; injection Hu as <-; reflexivity.
Defined.

(** C5 as stated fails at a weight "heavy" behind a length of 10^400: the
    overflow of the length is met first and is not taken by the inner
    handler. *)
Lemma C5_counterexample :
  read_fields (rt := Sample.runtime Sample.huge_length_heavy_weight []) Sample.text
    = Ok (PyInt (10 ^ 400), PyInt 0, PyInt 0, PyStr "heavy") /\
  non_numeric (rt := Sample.runtime Sample.huge_length_heavy_weight []) (PyStr "heavy") = true /\
  check_package_oversized_payload (rt := Sample.runtime Sample.huge_length_heavy_weight [])
    Sample.text [] =
    (Ok (PyDict [ ("oversized", PyBool false);
                  ("error", PyStr "Error processing package check: int too large to convert to float") ]),
     [(ERROR, "Error checking package: int too large to convert to float")]) /\
  fst (check_package_oversized_payload (rt := Sample.runtime Sample.huge_length_heavy_weight [])
         Sample.text []) <>
    Ok (PyDict [ ("oversized", PyBool false);
                 ("error", PyStr "Invalid input: All dimensions and weight must be numeric values.") ]).
Proof.
  assert (Hraw : read_fields (rt := Sample.runtime Sample.huge_length_heavy_weight []) Sample.text
                 = Ok (PyInt (10 ^ 400), PyInt 0, PyInt 0, PyStr "heavy")) by reflexivity.
  assert (Hbig : too_large (PyInt (10 ^ 400)) = true) by (vm_compute; reflexivity).
  split; [exact Hraw | ]. split; [reflexivity | ].
  rewrite (Examples.overflow_comes_first Sample.text [] _ _ _ _ Hraw Hbig).
  split; [reflexivity | ]. simpl. intros E. discriminate E.
Qed.

(** C9, amended, at a null width behind a missing length. *)
Lemma C9_witness :
  check_package_oversized_payload (rt := Sample.runtime Sample.null_width [])
    Sample.text [] =
    (Ok (EvaluationError "Invalid input: All dimensions and weight must be numeric values."), []).
Proof.
  apply (C9_null_field_rejected (rt := Sample.runtime Sample.null_width [])
           Sample.text [] (PyDict [("arguments", PyDict [("width", PyNone)])])
           [("width", PyNone)] 1 "width").
  - reflexivity.
  - reflexivity.
  - reflexivity.
  - reflexivity.
  - intros j k u Hj Hk Hu.
    destruct j as [ | j]; [ | lia]. simpl in Hk. injection Hk as <-.
    simpl in Hu. discriminate Hu.
Defined.

(** C9 as stated fails at a null width behind a length of 10^400. *)
Lemma C9_counterexample :
  json_loads (Runtime := Sample.runtime Sample.huge_length_null_width []) Sample.text
    = Ok (PyDict [("arguments", PyDict [("length", PyInt (10 ^ 400)); ("width", PyNone)])]) /\
  check_package_oversized_payload (rt := Sample.runtime Sample.huge_length_null_width [])
    Sample.text [] =
    (Ok (EvaluationError "Error processing package check: int too large to convert to float"),
     [(ERROR, "Error checking package: int too large to convert to float")]) /\
  fst (check_package_oversized_payload (rt := Sample.runtime Sample.huge_length_null_width [])
         Sample.text []) <>
    Ok (EvaluationError "Invalid input: All dimensions and weight must be numeric values.").
Proof.
  assert (Hraw : read_fields (rt := Sample.runtime Sample.huge_length_null_width []) Sample.text
                 = Ok (PyInt (10 ^ 400), PyNone, PyInt 0, PyInt 0)) by reflexivity.
  assert (Hbig : too_large (PyInt (10 ^ 400)) = true) by (vm_compute; reflexivity).
  split; [reflexivity | ].
  rewrite (Examples.overflow_comes_first Sample.text [] _ _ _ _ Hraw Hbig).
  split; [reflexivity | ]. simpl. intros E. discriminate E.
Qed.

(** C6, amended, at a text that is not JSON and at the document [[]]. *)
Lemma C6_witness :
  check_package_oversized_payload (rt := Sample.runtime Sample.not_json [])
    Sample.text [] = (Ok (EvaluationError "Invalid JSON format in context"), []) /\
  check_package_oversized_payload (rt := Sample.runtime Sample.empty_array [])
    Sample.text [] =
    (Ok (EvaluationError "Error processing package check: 'list' object has no attribute 'get'"),
     [(ERROR, "Error checking package: 'list' object has no attribute 'get'")]).
Proof.
  split.
  - exact (proj1 (C6_malformed_input_messages (rt := Sample.runtime Sample.not_json [])
                    Sample.text [])
             (mkExn JSONDecodeError "Expecting value: line 1 column 1 (char 0)")
             eq_refl eq_refl).
  - exact (proj2 (C6_malformed_input_messages (rt := Sample.runtime Sample.empty_array [])
                    Sample.text [])
             (PyList []) (PyList []) eq_refl eq_refl).
Defined.

(** C6 as stated fails at the document [[]]: valid JSON that is not a
    record gets the error of an unexpected failure. *)
Lemma C6_counterexample :
  json_loads (Runtime := Sample.runtime Sample.empty_array []) Sample.text = Ok (PyList []) /\
  check_package_oversized_payload (rt := Sample.runtime Sample.empty_array [])
    Sample.text [] =
    (Ok (PyDict [ ("oversized", PyBool false);
                  ("error", PyStr "Error processing package check: 'list' object has no attribute 'get'") ]),
     [(ERROR, "Error checking package: 'list' object has no attribute 'get'")]) /\
  fst (check_package_oversized_payload (rt := Sample.runtime Sample.empty_array [])
         Sample.text []) <>
    Ok (PyDict [ ("oversized", PyBool false);
                 ("error", PyStr "Invalid JSON format in context") ]).
Proof.
  split; [reflexivity | ]. split; [vm_compute; reflexivity | ].
  vm_compute. intros E. discriminate E.
Qed.

(** ** Failures outside the inner handler, and what the response depends on *)

Section Failures.

Context {rt : Runtime}.

(** When decoding raises anything but a [JSONDecodeError], the response is
    the error of an unexpected failure with the text of the exception, and
    that text is logged as an error. *)
Theorem unexpected_decoding_failure (context : string) (l : log) (e : exn) :
  json_loads context = Raise e ->
  isinstance e JSONDecodeError = false ->
  check_package_oversized_payload context l =
    (Ok (PyDict [ ("oversized", PyBool false);
                  ("error", PyStr ("Error processing package check: " ++ exn_str e)) ]),
     append l (ERROR, "Error checking package: " ++ exn_str e)).
Proof.
  intros Hdoc He. rewrite payload_unfold. unfold read_fields.
  cbn [bind ret Monad_result]. rewrite Hdoc. unfold outer_handler. rewrite He. reflexivity.
Qed.

(** A field that is too large, behind fields that are numbers or numeric
    strings, makes the coercion fail with the overflow. *)
Lemma to_floats_overflow (raw : pyval * pyval * pyval * pyval) (i : nat) (v : pyval) :
  nth_error (in_order raw) i = Some v ->
  too_large v = true ->
  (forall j u, j < i -> nth_error (in_order raw) j = Some u -> non_numeric u = false) ->
  to_floats raw = Raise (mkExn OverflowError "int too large to convert to float").
Proof.
  destruct raw as [[[a b] c] d]. unfold in_order, to_floats.
  cbn [bind ret Monad_result].
  intros Hv Hbig Hbefore.
  assert (Ha : 0 < i -> non_numeric a = false) by (intros; apply (Hbefore 0); [lia | reflexivity]).
  assert (Hb : 1 < i -> non_numeric b = false) by (intros; apply (Hbefore 1); [lia | reflexivity]).
  assert (Hc : 2 < i -> non_numeric c = false) by (intros; apply (Hbefore 2); [lia | reflexivity]).
  clear Hbefore.
  pose proof (py_float_outcome a) as Oa. pose proof (py_float_outcome b) as Ob.
  pose proof (py_float_outcome c) as Oc. pose proof (py_float_outcome d) as Od.
  destruct i as [ | [ | [ | [ | i]]]]; simpl in Hv;
    try (destruct i; discriminate Hv);
    injection Hv as <-.
  - destruct (py_float a) as [x | e]; [destruct Oa; congruence | ].
    destruct Oa as [(N & T & _) | (_ & _ & _ & ->)]; [congruence | reflexivity].
  - specialize (Ha ltac:(lia)).
    destruct (py_float a) as [x | e].
    + destruct (py_float b) as [y | e]; [destruct Ob; congruence | ].
      destruct Ob as [(N & T & _) | (_ & _ & _ & ->)]; [congruence | reflexivity].
    + destruct Oa as [(N & T & _) | (_ & _ & _ & ->)]; [congruence | reflexivity].
  - specialize (Ha ltac:(lia)). specialize (Hb ltac:(lia)).
    destruct (py_float a) as [x | e].
    + destruct (py_float b) as [y | e].
      * destruct (py_float c) as [z | e]; [destruct Oc; congruence | ].
        destruct Oc as [(N & T & _) | (_ & _ & _ & ->)]; [congruence | reflexivity].
      * destruct Ob as [(N & T & _) | (_ & _ & _ & ->)]; [congruence | reflexivity].
    + destruct Oa as [(N & T & _) | (_ & _ & _ & ->)]; [congruence | reflexivity].
  - specialize (Ha ltac:(lia)). specialize (Hb ltac:(lia)). specialize (Hc ltac:(lia)).
    destruct (py_float a) as [x | e].
    + destruct (py_float b) as [y | e].
      * destruct (py_float c) as [z | e].
        -- destruct (py_float d) as [t | e]; [destruct Od; congruence | ].
           destruct Od as [(N & T & _) | (_ & _ & _ & ->)]; [congruence | reflexivity].
        -- destruct Oc as [(N & T & _) | (_ & _ & _ & ->)]; [congruence | reflexivity].
      * destruct Ob as [(N & T & _) | (_ & _ & _ & ->)]; [congruence | reflexivity].
    + destruct Oa as [(N & T & _) | (_ & _ & _ & ->)]; [congruence | reflexivity].
Qed.

(** An int too large for a float, in a field that no field which is neither
    a number nor a numeric string precedes, ends the call with the error of
    an unexpected failure, logged as an error. *)
Theorem too_large_field_is_unexpected
  (context : string) (l : log) (raw : pyval * pyval * pyval * pyval) (i : nat) (v : pyval) :
  read_fields context = Ok raw ->
  nth_error (in_order raw) i = Some v ->
  too_large v = true ->
  (forall j u, j < i -> nth_error (in_order raw) j = Some u -> non_numeric u = false) ->
  check_package_oversized_payload context l =
    (Ok (PyDict [ ("oversized", PyBool false);
                  ("error", PyStr "Error processing package check: int too large to convert to float") ]),
     append l (ERROR, "Error checking package: int too large to convert to float")).
Proof.
  intros Hraw Hv Hbig Hbefore.
  rewrite payload_unfold, Hraw, (to_floats_overflow raw i v Hv Hbig Hbefore).
  reflexivity.
Qed.

(** The response is decided by how each of the four fields coerces. *)
Lemma payload_by_fields (c1 c2 : string) (d1 d2 : pyval) (a1 a2 : list (string * pyval))
      (l : log) :
  json_loads c1 = Ok d1 -> py_get d1 "arguments" (PyDict []) = Ok (PyDict a1) ->
  json_loads c2 = Ok d2 -> py_get d2 "arguments" (PyDict []) = Ok (PyDict a2) ->
  (forall key, In key field_names -> field_or_zero a1 key = field_or_zero a2 key) ->
  check_package_oversized_payload c1 l = check_package_oversized_payload c2 l.
Proof.
  intros H1 G1 H2 G2 Hsame.
  rewrite !payload_unfold.
  rewrite (read_fields_args c1 d1 a1 H1 G1), (read_fields_args c2 d2 a2 H2 G2).
  unfold to_floats. cbn [bind ret Monad_result]. rewrite !py_float_field.
  rewrite (Hsame "length"), (Hsame "width"), (Hsame "height"), (Hsame "weight");
    unfold field_names; simpl; auto 6.
Qed.

(** Two requests whose arguments coerce alike, field by field, get the same
    response and leave the same log: a number, the string that reads as it,
    and for 1 and 0 the booleans and a missing key, are interchangeable. *)
Theorem same_coercion_same_response
  (c1 c2 : string) (d1 d2 : pyval) (a1 a2 : list (string * pyval)) (l : log) :
  json_loads c1 = Ok d1 -> py_get d1 "arguments" (PyDict []) = Ok (PyDict a1) ->
  json_loads c2 = Ok d2 -> py_get d2 "arguments" (PyDict []) = Ok (PyDict a2) ->
  (forall key, In key field_names -> field_or_zero a1 key = field_or_zero a2 key) ->
  check_package_oversized c1 l = check_package_oversized c2 l.
Proof.
  intros H1 G1 H2 G2 Hsame. unfold check_package_oversized.
  cbn [bind ret Monad_M].
  rewrite (payload_by_fields c1 c2 d1 d2 a1 a2 l H1 G1 H2 G2 Hsame). reflexivity.
Qed.

End Failures.

(** ** Values at the edge of the floats *)

Module EdgeFacts.

(** A NaN is neither above nor below anything, and it absorbs a sum. *)
Lemma fge_nan_l (y : float) : fge S754_nan y = false.
Proof. destruct y; reflexivity. Qed.

Lemma fgt_nan_l (y : float) : fgt S754_nan y = false.
Proof. destruct y; reflexivity. Qed.

Lemma fadd_nan_l (y : float) : fadd S754_nan y = S754_nan.
Proof. reflexivity. Qed.

Lemma fadd_nan_r (x : float) : fadd x S754_nan = S754_nan.
Proof. destruct x; reflexivity. Qed.

Lemma is_nan_eq (x : float) : is_nan x = true -> x = S754_nan.
Proof. destruct x; simpl; congruence. Qed.

(** Rounding keeps a negative sign: the outcome is a zero, a negative
    number, the negative infinity, or the NaN of an impossible mantissa. *)
Lemma binary_round_aux_negative (mx ex : Z) (lx : location) :
  non_positive (binary_round_aux prec emax true mx ex lx) = true \/
  binary_round_aux prec emax true mx ex lx = S754_nan.
Proof.
  unfold binary_round_aux.
  destruct (shr_fexp prec emax mx ex lx) as [mrs' e'].
  destruct (shr_fexp prec emax _ e' loc_Exact) as [mrs'' e''].
  destruct (shr_m mrs'') as [ | m | m].
  - left; reflexivity.
  - destruct (Z.leb e'' (Z.sub emax prec)); left; reflexivity.
  - right; reflexivity.
Qed.

(** The sum of two floats that are not positive is not positive, or NaN. *)
Lemma fadd_non_positive (x y : float) :
  non_positive x = true -> non_positive y = true ->
  non_positive (fadd x y) = true \/ fadd x y = S754_nan.
Proof.
  destruct x as [sx | sx | | sx mx ex], y as [sy | sy | | sy my ey]; simpl;
    intros Hx Hy; try discriminate; subst;
    try (left; reflexivity);
    try (destruct sx, sy; left; reflexivity);
    try (destruct sx; left; reflexivity);
    try (destruct sy; left; reflexivity).
  unfold fadd, SFadd.
  generalize (fst (shl_align mx ex (Z.min ex ey))) as p.
  generalize (fst (shl_align my ey (Z.min ex ey))) as q.
  intros q p. cbn [cond_Zopp Z.opp Z.add]. unfold binary_normalize, binary_round.
  destruct (shl_align _ _ _) as [mz ez].
  apply binary_round_aux_negative.
Qed.

(** A float that is not positive, or is NaN, is under every limit. *)
Lemma under_limits (x : float) :
  non_positive x = true \/ x = S754_nan ->
  fge x (float_of_Z 5000) = false /\
  fgt x (float_of_Z 60) = false /\
  fgt x (float_of_Z 150) = false.
Proof.
  intros [H | ->]; [ | repeat split; reflexivity].
  destruct x as [s | s | | s m e]; simpl in H; try discriminate; subst;
    repeat split; reflexivity.
Qed.

End EdgeFacts.

Section Edges.

Context {rt : Runtime}.

(** A NaN passes every limit it takes part in: a NaN weight is not reported
    as too heavy, a NaN dimension is not reported as too long and makes the
    total NaN, which is not reported either.  With a NaN weight, at least
    one NaN dimension and the other dimensions at most 60, the package is
    said to meet all requirements. *)
Theorem nan_passes_every_limit
  (context : string) (l : log) (length width height weight : float) :
  coerced_fields context = Ok (length, width, height, weight) ->
  let total := fadd (fadd length width) height in
  exists oversized reasoning l',
    check_package_oversized_payload context l =
      (Ok (EvaluationResult oversized length width height weight total reasoning), l') /\
    (is_nan weight = true -> ~ In (weight_reason weight) reasoning) /\
    (is_nan length = true ->
       total = S754_nan /\ ~ In (length_reason length) reasoning /\
       ~ In (total_reason total) reasoning) /\
    (is_nan width = true ->
       total = S754_nan /\ ~ In (width_reason width) reasoning /\
       ~ In (total_reason total) reasoning) /\
    (is_nan height = true ->
       total = S754_nan /\ ~ In (height_reason height) reasoning /\
       ~ In (total_reason total) reasoning) /\
    (is_nan weight = true ->
     is_nan length || is_nan width || is_nan height = true ->
     is_nan length || fle length (float_of_Z 60) = true ->
     is_nan width || fle width (float_of_Z 60) = true ->
     is_nan height || fle height (float_of_Z 60) = true ->
     oversized = false /\ reasoning = ["Package meets all size and weight requirements"]).
Proof.
  intros H total.
  eexists; eexists; eexists. split; [apply (payload_success context l _ _ _ _ H) | ].
  destruct (reason_reported length width height weight) as (Rwt & Rl & Rw & Rh & Rt).
  cbv zeta in Rwt, Rl, Rw, Rh, Rt. fold total in Rt.
  assert (Tl : is_nan length = true -> total = S754_nan).
  { intros E. apply EdgeFacts.is_nan_eq in E. subst length. reflexivity. }
  assert (Tw : is_nan width = true -> total = S754_nan).
  { intros E. apply EdgeFacts.is_nan_eq in E. subst width. unfold total.
    now rewrite EdgeFacts.fadd_nan_r. }
  assert (Th : is_nan height = true -> total = S754_nan).
  { intros E. apply EdgeFacts.is_nan_eq in E. subst height. unfold total.
    now rewrite EdgeFacts.fadd_nan_r. }
  assert (Tn : total = S754_nan ->
               ~ In (total_reason total) (reasoning_of (rules length width height weight))).
  { intros E Hin. apply Rt in Hin. rewrite E in Hin. discriminate Hin. }
  assert (Dim : forall x, is_nan x || fle x (float_of_Z 60) = true ->
                          fgt x (float_of_Z 60) = false).
  { intros x Hx. apply orb_true_iff in Hx. destruct Hx as [N | L].
    - apply EdgeFacts.is_nan_eq in N. subst x. reflexivity.
    - now apply fle_not_fgt. }
  split; [ | split; [ | split; [ | split]]].
  - intros E Hin. apply Rwt in Hin. apply EdgeFacts.is_nan_eq in E. subst weight.
    discriminate Hin.
  - intros E. split; [auto | ]. split; [ | auto].
    intros Hin. apply Rl in Hin. apply EdgeFacts.is_nan_eq in E. subst length.
    discriminate Hin.
  - intros E. split; [auto | ]. split; [ | auto].
    intros Hin. apply Rw in Hin. apply EdgeFacts.is_nan_eq in E. subst width.
    discriminate Hin.
  - intros E. split; [auto | ]. split; [ | auto].
    intros Hin. apply Rh in Hin. apply EdgeFacts.is_nan_eq in E. subst height.
    discriminate Hin.
  - intros Ewt Esome El Ew Eh.
    assert (Et : total = S754_nan).
    { apply orb_true_iff in Esome. destruct Esome as [Esome | Esome]; [ | auto].
      apply orb_true_iff in Esome. destruct Esome; auto. }
    apply EdgeFacts.is_nan_eq in Ewt. subst weight.
    unfold reasoning_of, any_triggered, rules. fold total.
    cbn [existsb fst]. rewrite (Dim _ El), (Dim _ Ew), (Dim _ Eh), Et.
    split; reflexivity.
Qed.

(** Fields that are zero, negative or the negative infinity are taken as
    they are and never make a package oversized: there is no lower bound. *)
Theorem non_positive_fields_never_oversized
  (context : string) (l : log) (length width height weight : float) :
  coerced_fields context = Ok (length, width, height, weight) ->
  non_positive length = true ->
  non_positive width = true ->
  non_positive height = true ->
  non_positive weight = true ->
  exists l',
    check_package_oversized_payload context l =
      (Ok (EvaluationResult false length width height weight
             (fadd (fadd length width) height)
             ["Package meets all size and weight requirements"]), l').
Proof.
  intros H Hl Hw Hh Hwt.
  eexists. rewrite (payload_success context l _ _ _ _ H). cbv zeta.
  assert (Ht : non_positive (fadd (fadd length width) height) = true \/
               fadd (fadd length width) height = S754_nan).
  { destruct (EdgeFacts.fadd_non_positive length width Hl Hw) as [Hlw | Hlw].
    - exact (EdgeFacts.fadd_non_positive _ height Hlw Hh).
    - right. rewrite Hlw. reflexivity. }
  destruct (EdgeFacts.under_limits weight (or_introl Hwt)) as (Ewt & _ & _).
  destruct (EdgeFacts.under_limits length (or_introl Hl)) as (_ & El & _).
  destruct (EdgeFacts.under_limits width (or_introl Hw)) as (_ & Ew & _).
  destruct (EdgeFacts.under_limits height (or_introl Hh)) as (_ & Eh & _).
  destruct (EdgeFacts.under_limits _ Ht) as (_ & _ & Et).
  unfold reasoning_of, any_triggered, rules.
  cbn [existsb fst]. rewrite Ewt, El, Ew, Eh, Et. reflexivity.
Qed.

End Edges.

(** ** The shape of the reasoning and of the log *)

Section Shape.

Context {rt : Runtime}.

(** The reasoning of a result holds between one and five entries, none of
    them twice, and it is the default message alone exactly when the package
    is not oversized; the default message never stands beside a reason. *)
Theorem reasoning_shape
  (context : string) (l : log) (length width height weight : float) :
  coerced_fields context = Ok (length, width, height, weight) ->
  exists oversized reasoning l',
    check_package_oversized_payload context l =
      (Ok (EvaluationResult oversized length width height weight
             (fadd (fadd length width) height) reasoning), l') /\
    NoDup reasoning /\
    1 <= List.length reasoning <= 5 /\
    (oversized = false <-> reasoning = ["Package meets all size and weight requirements"]) /\
    (oversized = true <-> ~ In "Package meets all size and weight requirements" reasoning).
Proof.
  intros H.
  eexists; eexists; eexists. split; [apply (payload_success context l _ _ _ _ H) | ].
  unfold reasoning_of, rules, any_triggered, triggered, weight_reason, length_reason,
    width_reason, height_reason, total_reason, meets_requirements.
  destruct (fge weight (float_of_Z 5000)), (fgt length (float_of_Z 60)),
    (fgt width (float_of_Z 60)), (fgt height (float_of_Z 60)),
    (fgt (fadd (fadd length width) height) (float_of_Z 150));
    simpl; (split; [ | split; [lia | split; split; intros E; try discriminate E; auto]]);
    try (repeat (constructor; simpl;
                 [intros D;
                  repeat match goal with
                         | D : _ \/ _ |- _ => destruct D as [D | D]
                         | D : False |- _ => destruct D
                         | D : String _ _ = String _ _ |- _ => discriminate D
                         end | ]); constructor);
    try (intros D;
         repeat match goal with
                | D : _ \/ _ |- _ => destruct D as [D | D]
                | D : False |- _ => destruct D
                | D : String _ _ = String _ _ |- _ => discriminate D
                end);
    try (exfalso; apply E; left; reflexivity).
Qed.

(** What a call leaves in the log.  A result comes with one INFO record
    that shows it.  An error is one of three: the two that are not logged,
    about numeric values and about the JSON format, and the unexpected
    failure, which comes with one ERROR record of the same details. *)
Theorem one_record_at_most (context : string) (l : log) :
  exists payload records,
    check_package_oversized_payload context l = (Ok payload, (l ++ records)%list) /\
    ((is_result payload /\
      records = [(INFO, "Package check result: " ++ py_str payload)]) \/
     (records = [] /\
      (payload = EvaluationError "Invalid input: All dimensions and weight must be numeric values." \/
       payload = EvaluationError "Invalid JSON format in context")) \/
     (exists details,
        payload = EvaluationError ("Error processing package check: " ++ details) /\
        records = [(ERROR, "Error checking package: " ++ details)])).
Proof.
  rewrite payload_unfold. unfold outer_handler, append.
  destruct (read_fields context) as [raw | e].
  - destruct (to_floats raw) as [[[[length width] height] weight] | e].
    + cbv zeta. rewrite build_result_rules. eexists; eexists.
      split; [reflexivity | left]. split; [ | reflexivity].
      unfold is_result. repeat eexists.
    + destruct (guarded e); [ | destruct (isinstance e JSONDecodeError)].
      * exists (EvaluationError non_numeric_message), [].
        rewrite app_nil_r. split; [reflexivity | right; left; split; [reflexivity | left; reflexivity]].
      * exists (EvaluationError invalid_json_message), [].
        rewrite app_nil_r. split; [reflexivity | right; left; split; [reflexivity | right; reflexivity]].
      * eexists; eexists. split; [reflexivity | right; right]. exists (exn_str e).
        split; reflexivity.
  - destruct (isinstance e JSONDecodeError).
    + exists (EvaluationError invalid_json_message), [].
      rewrite app_nil_r. split; [reflexivity | right; left; split; [reflexivity | right; reflexivity]].
    + eexists; eexists. split; [reflexivity | right; right]. exists (exn_str e).
      split; reflexivity.
Qed.

End Shape.

(** ** The declared parameters and the fields that are read *)

Section Declaration.

Context {rt : Runtime}.

(** The names of the declared properties are the keys that the function
    reads, in the order in which it coerces them. *)
Lemma declared_names :
  map propertyName tool_properties_package_check_object = field_names.
Proof. reflexivity. Qed.

(** The declared parameters are the whole interface of the function:
    requests whose arguments agree on every declared property get the same
    response and leave the same log. *)
Theorem declared_parameters_decide_the_response
  (c1 c2 : string) (d1 d2 : pyval) (a1 a2 : list (string * pyval)) (l : log) :
  json_loads c1 = Ok d1 -> py_get d1 "arguments" (PyDict []) = Ok (PyDict a1) ->
  json_loads c2 = Ok d2 -> py_get d2 "arguments" (PyDict []) = Ok (PyDict a2) ->
  (forall p, In p tool_properties_package_check_object ->
             lookup (propertyName p) a1 = lookup (propertyName p) a2) ->
  check_package_oversized c1 l = check_package_oversized c2 l.
Proof.
  intros H1 G1 H2 G2 Hsame. unfold check_package_oversized.
  cbn [bind ret Monad_M].
  rewrite (payload_by_fields c1 c2 d1 d2 a1 a2 l H1 G1 H2 G2); [reflexivity | ].
  intros key Hkey. rewrite <- declared_names in Hkey.
  apply in_map_iff in Hkey. destruct Hkey as (p & <- & Hp).
  unfold field_or_zero. now rewrite (Hsame p Hp).
Qed.

(** Every declared parameter is typed as a number and is read by the
    function: a request that sets it alone, to null, is answered with the
    error about numeric values, whereas the request without any argument
    succeeds. *)
Theorem every_declared_parameter_is_read
  (p : ToolProperty) (context : string) (l : log) :
  In p tool_properties_package_check_object ->
  json_loads context = Ok (PyDict [("arguments", PyDict [(propertyName p, PyNone)])]) ->
  propertyType p = "number" /\
  check_package_oversized_payload context l =
    (Ok (EvaluationError "Invalid input: All dimensions and weight must be numeric values."), l).
Proof.
  intros Hp Hdoc.
  assert (Hraw := read_fields_args context _ [(propertyName p, PyNone)] Hdoc eq_refl).
  destruct Hp as [<- | [<- | [<- | [<- | []]]]]; (split; [reflexivity | ]);
    rewrite payload_unfold, Hraw; reflexivity.
Qed.

End Declaration.

(** ** Integers as floats

    An integer of at most 53 bits is a double, and on such integers the
    addition and the comparisons of floats are those of the integers. *)

Module IntegerFacts.

Lemma shl_succ p n : shl p (S n) = xO (shl p n).
Proof. reflexivity. Qed.

Lemma shl_add p n m : shl (shl p n) m = shl p (n + m).
Proof. unfold shl. rewrite Nat.add_comm. symmetry. apply Nat.iter_add. Qed.

Lemma pos_iter_shl p q : Pos.iter xO p q = shl p (Pos.to_nat q).
Proof. unfold shl. rewrite Pos2Nat.inj_iter. reflexivity. Qed.

Lemma digits_shl p n : Zpos (digits2_pos (shl p n)) = (Zpos (digits2_pos p) + Z.of_nat n)%Z.
Proof.
  induction n as [ | n IH].
  - simpl. lia.
  - rewrite shl_succ. cbn [digits2_pos]. rewrite Pos2Z.inj_succ, IH. lia.
Qed.

Lemma shl_Z p n : Zpos (shl p n) = (Zpos p * 2 ^ Z.of_nat n)%Z.
Proof.
  induction n as [ | n IH].
  - simpl. lia.
  - rewrite shl_succ, (Pos2Z.inj_xO (shl p n)), IH, Nat2Z.inj_succ, Z.pow_succ_r by lia. ring.
Qed.

Lemma iter_pos_nat {A} (f : A -> A) n x : iter_pos f n x = Nat.iter (Pos.to_nat n) f x.
Proof.
  revert x. induction n as [n IH | n IH | ]; intros x; cbn [iter_pos].
  - rewrite !IH, Pos2Nat.inj_xI. rewrite <- Nat.iter_add, <- Nat.iter_succ_r.
    f_equal. lia.
  - rewrite !IH, Pos2Nat.inj_xO. rewrite <- Nat.iter_add. f_equal. lia.
  - reflexivity.
Qed.

Lemma shr_shl p n :
  Nat.iter n shr_1 (Build_shr_record (Zpos (shl p n)) false false)
    = Build_shr_record (Zpos p) false false.
Proof.
  induction n as [ | n IH].
  - reflexivity.
  - rewrite Nat.iter_succ_r, shl_succ. simpl shr_1. exact IH.
Qed.

Lemma digits_pos p : (1 <= Zpos (digits2_pos p))%Z.
Proof. lia. Qed.

(** A number of [d] bits lies between [2^(d-1)] and [2^d]. *)
Lemma digits_bound p : (2 ^ (Zpos (digits2_pos p) - 1) <= Zpos p < 2 ^ Zpos (digits2_pos p))%Z.
Proof.
  induction p as [p IH | p IH | ]; cbn [digits2_pos].
  - rewrite Pos2Z.inj_succ, (Pos2Z.inj_xI p).
    replace (Z.succ (Zpos (digits2_pos p)) - 1)%Z with (Z.succ (Zpos (digits2_pos p) - 1))%Z by lia.
    rewrite !Z.pow_succ_r by lia. lia.
  - rewrite Pos2Z.inj_succ, (Pos2Z.inj_xO p).
    replace (Z.succ (Zpos (digits2_pos p)) - 1)%Z with (Z.succ (Zpos (digits2_pos p) - 1))%Z by lia.
    rewrite !Z.pow_succ_r by lia. lia.
  - split; [vm_compute; discriminate | reflexivity].
Qed.

Lemma digits_le_53 p : (Zpos p < 2 ^ 53)%Z -> (Zpos (digits2_pos p) <= 53)%Z.
Proof.
  intros H. destruct (digits_bound p) as [L _].
  destruct (Z.le_gt_cases (Zpos (digits2_pos p)) 53) as [ | G]; [assumption | exfalso].
  assert (2 ^ 53 <= 2 ^ (Zpos (digits2_pos p) - 1))%Z by (apply Z.pow_le_mono_r; lia).
  lia.
Qed.

(** Rounding leaves a mantissa of 53 bits alone. *)
Lemma shr_fexp_canonical m e :
  Zpos (digits2_pos m) = 53%Z -> (-1074 <= e)%Z ->
  shr_fexp prec emax (Zpos m) e loc_Exact = (Build_shr_record (Zpos m) false false, e).
Proof.
  intros D E. unfold shr_fexp, fexp, emin, prec, emax. cbn [Zdigits2 shr_record_of_loc].
  rewrite D.
  replace (Z.max (53 + e - 53) (3 - 1024 - 53) - e)%Z with 0%Z by lia.
  reflexivity.
Qed.

Lemma round_canonical s m e :
  Zpos (digits2_pos m) = 53%Z -> (-1074 <= e <= 971)%Z ->
  binary_round_aux prec emax s (Zpos m) e loc_Exact = S754_finite s m e.
Proof.
  intros D E. unfold binary_round_aux.
  rewrite (shr_fexp_canonical m e D) by lia. cbn [shr_m loc_of_shr_record round_nearest_even].
  rewrite (shr_fexp_canonical m e D) by lia. cbn [shr_m].
  unfold emax, prec. replace (Z.leb e (1024 - 53)) with true; [reflexivity | ].
  symmetry. apply Z.leb_le. lia.
Qed.

Lemma round_shl s p k :
  (Zpos (digits2_pos p) <= 53)%Z ->
  binary_round prec emax s (shl p k) (- Z.of_nat k) = normal s p.
Proof.
  intros D. unfold binary_round, normal.
  set (d := digits2_pos p) in *.
  assert (Hd : (1 <= Zpos d)%Z) by lia.
  rewrite digits_shl. fold d.
  replace (fexp prec emax (Zpos d + Z.of_nat k + - Z.of_nat k)) with (Zpos d - 53)%Z
    by (unfold fexp, emin, prec, emax; lia).
  unfold shl_align.
  replace (Zpos d - 53 - - Z.of_nat k)%Z with (Zpos d + Z.of_nat k - 53)%Z by lia.
  assert (Hn : Z.of_nat (53 - Pos.to_nat d) = (53 - Zpos d)%Z).
  { rewrite Nat2Z.inj_sub, positive_nat_Z by lia. reflexivity. }
  destruct (Zpos d + Z.of_nat k - 53)%Z as [ | q | q] eqn:Q.
  - rewrite round_canonical.
    + f_equal; [ | lia]. f_equal. lia.
    + rewrite digits_shl. fold d. lia.
    + lia.
  - (* the mantissa is too long by [q] zero bits, which are shifted out *)
    unfold binary_round_aux.
    assert (Hs : shr_fexp prec emax (Zpos (shl p k)) (- Z.of_nat k) loc_Exact
                 = (Build_shr_record (Zpos (shl p (53 - Pos.to_nat d))) false false,
                    (Zpos d - 53)%Z)).
    { unfold shr_fexp. cbn [Zdigits2 shr_record_of_loc]. rewrite digits_shl. fold d.
      replace (fexp prec emax (Zpos d + Z.of_nat k + - Z.of_nat k) - - Z.of_nat k)%Z
        with (Zpos q) by (unfold fexp, emin, prec, emax; lia).
      unfold shr. rewrite iter_pos_nat.
      replace k with ((53 - Pos.to_nat d) + Pos.to_nat q)%nat at 1 by lia.
      rewrite <- shl_add, shr_shl. f_equal. lia. }
    rewrite Hs. cbn [shr_m loc_of_shr_record round_nearest_even].
    rewrite shr_fexp_canonical.
    + cbn [shr_m]. unfold emax, prec.
      replace (Z.leb (Zpos d - 53) (1024 - 53)) with true; [reflexivity | ].
      symmetry. apply Z.leb_le. lia.
    + rewrite digits_shl. fold d. lia.
    + lia.
  - rewrite pos_iter_shl, shl_add, round_canonical.
    + f_equal. f_equal. lia.
    + rewrite digits_shl. fold d. lia.
    + lia.
Qed.

Lemma float_of_Z_pos p : (Zpos p < 2 ^ 53)%Z -> float_of_Z (Zpos p) = normal false p.
Proof. intros H. apply (round_shl false p 0), digits_le_53, H. Qed.

Lemma float_of_Z_neg p : (Zpos p < 2 ^ 53)%Z -> float_of_Z (Zneg p) = normal true p.
Proof. intros H. apply (round_shl true p 0), digits_le_53, H. Qed.

Lemma float_of_Z_signed s p : (Zpos p < 2 ^ 53)%Z -> float_of_Z (signed s p) = normal s p.
Proof. destruct s; [apply float_of_Z_neg | apply float_of_Z_pos]. Qed.

Lemma normalize_shl (c : Z) (k : nat) :
  (Z.abs c < 2 ^ 53)%Z ->
  binary_normalize prec emax (c * 2 ^ Z.of_nat k) (- Z.of_nat k) false = float_of_Z c.
Proof.
  intros H. destruct c as [ | p | p].
  - reflexivity.
  - rewrite <- shl_Z. cbn [binary_normalize]. rewrite round_shl by (apply digits_le_53; lia).
    symmetry. apply float_of_Z_pos. lia.
  - change (Zneg p) with (- Zpos p)%Z. rewrite Z.mul_opp_l, <- shl_Z.
    cbn [Z.opp binary_normalize]. rewrite round_shl by (apply digits_le_53; lia).
    symmetry. apply float_of_Z_neg. lia.
Qed.

(** Aligning the mantissa of a normal form on a smaller exponent. *)
Lemma align_normal p (ez : Z) :
  (Zpos (digits2_pos p) <= 53)%Z -> (ez <= Zpos (digits2_pos p) - 53)%Z ->
  fst (shl_align (shl p (53 - Pos.to_nat (digits2_pos p))) (Zpos (digits2_pos p) - 53) ez)
    = shl p (Z.to_nat (- ez)).
Proof.
  intros D E. unfold shl_align.
  destruct (ez - (Zpos (digits2_pos p) - 53))%Z as [ | q | q] eqn:Q; cbn [fst].
  - f_equal. lia.
  - lia.
  - rewrite pos_iter_shl, shl_add. f_equal. lia.
Qed.

Lemma cond_Zopp_signed s p : cond_Zopp s (Zpos p) = signed s p.
Proof. destruct s; reflexivity. Qed.

Lemma signed_shl s p k : signed s (shl p k) = (signed s p * 2 ^ Z.of_nat k)%Z.
Proof.
  destruct s; cbn [signed].
  - change (Zneg (shl p k)) with (- Zpos (shl p k))%Z. rewrite shl_Z.
    change (Zneg p) with (- Zpos p)%Z. ring.
  - apply shl_Z.
Qed.

Lemma fadd_normal sa pa sb pb :
  (Zpos pa < 2 ^ 53)%Z -> (Zpos pb < 2 ^ 53)%Z ->
  (Z.abs (signed sa pa + signed sb pb) < 2 ^ 53)%Z ->
  fadd (normal sa pa) (normal sb pb) = float_of_Z (signed sa pa + signed sb pb).
Proof.
  intros Ha Hb Hc.
  pose proof (digits_le_53 pa Ha) as Da. pose proof (digits_le_53 pb Hb) as Db.
  unfold normal, fadd. cbn [SFadd].
  set (ez := Z.min (Zpos (digits2_pos pa) - 53) (Zpos (digits2_pos pb) - 53)).
  rewrite (align_normal pa ez Da) by (unfold ez; lia).
  rewrite (align_normal pb ez Db) by (unfold ez; lia).
  rewrite !cond_Zopp_signed, !signed_shl, <- Z.mul_add_distr_r.
  rewrite <- (normalize_shl _ (Z.to_nat (- ez)) Hc).
  f_equal. unfold ez. lia.
Qed.

Lemma fadd_exact (a b : Z) :
  (Z.abs a < 2 ^ 53)%Z -> (Z.abs b < 2 ^ 53)%Z -> (Z.abs (a + b) < 2 ^ 53)%Z ->
  fadd (float_of_Z a) (float_of_Z b) = float_of_Z (a + b).
Proof.
  intros Ha Hb Hc.
  destruct a as [ | pa | pa].
  - destruct b as [ | pb | pb]; [reflexivity | | ]; cbn [Z.add].
    + rewrite (float_of_Z_pos pb) by lia. reflexivity.
    + rewrite (float_of_Z_neg pb) by lia. reflexivity.
  - destruct b as [ | pb | pb].
    + rewrite Z.add_0_r, (float_of_Z_pos pa) by lia. reflexivity.
    + rewrite (float_of_Z_pos pa), (float_of_Z_pos pb) by lia.
      apply (fadd_normal false pa false pb); (lia || exact Hc).
    + rewrite (float_of_Z_pos pa), (float_of_Z_neg pb) by lia.
      apply (fadd_normal false pa true pb); (lia || exact Hc).
  - destruct b as [ | pb | pb].
    + rewrite Z.add_0_r, (float_of_Z_neg pa) by lia. reflexivity.
    + rewrite (float_of_Z_neg pa), (float_of_Z_pos pb) by lia.
      apply (fadd_normal true pa false pb); (lia || exact Hc).
    + rewrite (float_of_Z_neg pa), (float_of_Z_neg pb) by lia.
      apply (fadd_normal true pa true pb); (lia || exact Hc).
Qed.

(** Comparing normal forms is comparing the integers. *)
Lemma compare_shl pa pb k : Pos.compare_cont Eq (shl pa k) (shl pb k) = Pos.compare pa pb.
Proof.
  induction k as [ | k IH]; [reflexivity | ].
  rewrite !shl_succ. cbn [Pos.compare_cont]. exact IH.
Qed.

Lemma digits_lt pa pb :
  (Zpos (digits2_pos pa) < Zpos (digits2_pos pb))%Z -> (pa < pb)%positive.
Proof.
  intros H. destruct (digits_bound pa) as [_ Ua]. destruct (digits_bound pb) as [Lb _].
  assert (2 ^ Zpos (digits2_pos pa) <= 2 ^ (Zpos (digits2_pos pb) - 1))%Z
    by (apply Z.pow_le_mono_r; lia).
  lia.
Qed.

Lemma compare_normal_mantissas pa pb :
  match Z.compare (Zpos (digits2_pos pa) - 53) (Zpos (digits2_pos pb) - 53) with
  | Lt => Lt
  | Gt => Gt
  | Eq => Pos.compare_cont Eq (shl pa (53 - Pos.to_nat (digits2_pos pa)))
                              (shl pb (53 - Pos.to_nat (digits2_pos pb)))
  end = Pos.compare pa pb.
Proof.
  destruct (Z.compare_spec (Zpos (digits2_pos pa) - 53) (Zpos (digits2_pos pb) - 53)) as [E | L | G].
  - assert (E' : digits2_pos pa = digits2_pos pb) by lia. rewrite E'. apply compare_shl.
  - symmetry. apply Pos.compare_lt_iff, digits_lt. lia.
  - symmetry. apply Pos.compare_gt_iff, digits_lt. lia.
Qed.

Lemma compare_exact (a b : Z) :
  (Z.abs a < 2 ^ 53)%Z -> (Z.abs b < 2 ^ 53)%Z ->
  SFcompare (float_of_Z a) (float_of_Z b) = Some (a ?= b)%Z.
Proof.
  intros Ha Hb.
  destruct a as [ | pa | pa], b as [ | pb | pb];
    try rewrite (float_of_Z_pos pa) by lia; try rewrite (float_of_Z_neg pa) by lia;
    try rewrite (float_of_Z_pos pb) by lia; try rewrite (float_of_Z_neg pb) by lia;
    try reflexivity.
  - unfold normal. cbn [SFcompare Z.compare]. f_equal. apply compare_normal_mantissas.
  - unfold normal. cbn [SFcompare Z.compare]. f_equal.
    rewrite <- (compare_normal_mantissas pa pb).
    destruct (Z.compare _ _); reflexivity.
Qed.

Lemma fge_exact (a b : Z) :
  (Z.abs a < 2 ^ 53)%Z -> (Z.abs b < 2 ^ 53)%Z ->
  fge (float_of_Z a) (float_of_Z b) = (b <=? a)%Z.
Proof.
  intros Ha Hb. unfold fge, SFleb. rewrite (compare_exact b a Hb Ha).
  unfold Z.leb. destruct (b ?= a)%Z; reflexivity.
Qed.

Lemma fgt_exact (a b : Z) :
  (Z.abs a < 2 ^ 53)%Z -> (Z.abs b < 2 ^ 53)%Z ->
  fgt (float_of_Z a) (float_of_Z b) = (b <? a)%Z.
Proof.
  intros Ha Hb. unfold fgt, SFltb. rewrite (compare_exact b a Hb Ha).
  unfold Z.ltb. destruct (b ?= a)%Z; reflexivity.
Qed.

(** [float(n)] does not overflow on an int of at most 53 bits. *)
Lemma float_of_int_exact (n : Z) :
  (Z.abs n < 2 ^ 53)%Z -> float_of_int n = Ok (float_of_Z n).
Proof.
  intros H. unfold float_of_int.
  destruct n as [ | p | p].
  - reflexivity.
  - rewrite (float_of_Z_pos p) by lia. reflexivity.
  - rewrite (float_of_Z_neg p) by lia. reflexivity.
Qed.

End IntegerFacts.

Section Integers.

Context {rt : Runtime}.

(** An int field of at most 53 bits, or a missing one, coerces to the float
    of that integer. *)
Lemma int_field_coerces (args : list (string * pyval)) (key : string) (n : Z) :
  int_field args key = Some n ->
  (Z.abs n < 2 ^ 53)%Z ->
  field_or_zero args key = Ok (float_of_Z n).
Proof.
  unfold int_field, field_or_zero. intros H B.
  destruct (lookup key args) as [[ | b | m | x | s | items | entries] | ];
    try discriminate H; injection H as <-.
  - apply IntegerFacts.float_of_int_exact, B.
  - reflexivity.
Qed.

(** On a request whose fields are ints (or are missing), with dimensions of
    magnitude at most 2^51 and a weight below 2^53, floats change nothing:
    the echoed fields and the total are the floats of the integers and of
    their integer sum, and every rule triggers exactly when the integers
    pass its limit. *)
Theorem integer_fields_follow_integer_arithmetic
  (context : string) (l : log) (content : pyval) (args : list (string * pyval))
  (length width height weight : Z) :
  json_loads context = Ok content ->
  py_get content "arguments" (PyDict []) = Ok (PyDict args) ->
  int_field args "length" = Some length ->
  int_field args "width" = Some width ->
  int_field args "height" = Some height ->
  int_field args "weight" = Some weight ->
  (Z.abs length <= 2 ^ 51)%Z ->
  (Z.abs width <= 2 ^ 51)%Z ->
  (Z.abs height <= 2 ^ 51)%Z ->
  (Z.abs weight < 2 ^ 53)%Z ->
  exists oversized reasoning l',
    check_package_oversized_payload context l =
      (Ok (EvaluationResult oversized (float_of_Z length) (float_of_Z width)
             (float_of_Z height) (float_of_Z weight)
             (float_of_Z (length + width + height)) reasoning), l') /\
    (oversized = true <->
       (5000 <= weight \/ 60 < length \/ 60 < width \/ 60 < height \/
        150 < length + width + height)%Z) /\
    (In (weight_reason (float_of_Z weight)) reasoning <-> (5000 <= weight)%Z) /\
    (In (length_reason (float_of_Z length)) reasoning <-> (60 < length)%Z) /\
    (In (width_reason (float_of_Z width)) reasoning <-> (60 < width)%Z) /\
    (In (height_reason (float_of_Z height)) reasoning <-> (60 < height)%Z) /\
    (In (total_reason (float_of_Z (length + width + height))) reasoning <->
       (150 < length + width + height)%Z).
Proof.
  intros Hdoc Hargs Il Iw Ih Iwt Bl Bw Bh Bwt.
  assert (P51 : (2 ^ 51 = 2251799813685248)%Z) by reflexivity.
  assert (P53 : (2 ^ 53 = 9007199254740992)%Z) by reflexivity.
  rewrite P51 in Bl, Bw, Bh.
  assert (Al : (Z.abs length < 2 ^ 53)%Z) by (rewrite P53; lia).
  assert (Aw : (Z.abs width < 2 ^ 53)%Z) by (rewrite P53; lia).
  assert (Ah : (Z.abs height < 2 ^ 53)%Z) by (rewrite P53; lia).
  assert (Alw : (Z.abs (length + width) < 2 ^ 53)%Z) by (rewrite P53; lia).
  assert (At : (Z.abs (length + width + height) < 2 ^ 53)%Z) by (rewrite P53; lia).
  assert (A5000 : (Z.abs 5000 < 2 ^ 53)%Z) by reflexivity.
  assert (A60 : (Z.abs 60 < 2 ^ 53)%Z) by reflexivity.
  assert (A150 : (Z.abs 150 < 2 ^ 53)%Z) by reflexivity.
  pose proof (coerced_fields_args context content args _ _ _ _ Hdoc Hargs
                (int_field_coerces args "length" length Il Al)
                (int_field_coerces args "width" width Iw Aw)
                (int_field_coerces args "height" height Ih Ah)
                (int_field_coerces args "weight" weight Iwt Bwt)) as H.
  assert (Ht : fadd (fadd (float_of_Z length) (float_of_Z width)) (float_of_Z height)
               = float_of_Z (length + width + height)).
  { rewrite (IntegerFacts.fadd_exact length width Al Aw Alw).
    apply (IntegerFacts.fadd_exact (length + width) height Alw Ah At). }
  destruct (reason_reported (float_of_Z length) (float_of_Z width) (float_of_Z height)
              (float_of_Z weight)) as (Rwt & Rl & Rw & Rh & Rt).
  cbv zeta in Rwt, Rl, Rw, Rh, Rt. rewrite Ht in Rt.
  rewrite (IntegerFacts.fge_exact weight 5000 Bwt A5000) in Rwt.
  rewrite (IntegerFacts.fgt_exact length 60 Al A60) in Rl.
  rewrite (IntegerFacts.fgt_exact width 60 Aw A60) in Rw.
  rewrite (IntegerFacts.fgt_exact height 60 Ah A60) in Rh.
  rewrite (IntegerFacts.fgt_exact (length + width + height) 150 At A150) in Rt.
  rewrite Z.leb_le in Rwt. rewrite Z.ltb_lt in Rl, Rw, Rh, Rt.
  eexists; eexists; eexists.
  split; [rewrite <- Ht; apply (payload_success context l _ _ _ _ H) | ].
  split; [ | repeat split; tauto].
  unfold any_triggered, rules. cbn [existsb fst]. rewrite Ht.
  rewrite (IntegerFacts.fge_exact weight 5000 Bwt A5000),
    (IntegerFacts.fgt_exact length 60 Al A60),
    (IntegerFacts.fgt_exact width 60 Aw A60),
    (IntegerFacts.fgt_exact height 60 Ah A60),
    (IntegerFacts.fgt_exact (length + width + height) 150 At A150).
  rewrite !orb_true_iff, Z.leb_le, !Z.ltb_lt.
  split; [intros [? | [? | [? | [? | [? | ?]]]]]; try discriminate; tauto | tauto].
Qed.

End Integers.

(** ** The further properties at sample inputs *)

(** A context that is not a string: [json.loads] raises a [TypeError]. *)
Lemma unexpected_decoding_failure_witness :
  check_package_oversized_payload (rt := Sample.runtime MoreSamples.not_a_string [])
    Sample.text [] =
    (Ok (EvaluationError
           "Error processing package check: the JSON object must be str, bytes or bytearray, not NoneType"),
     [(ERROR, "Error checking package: the JSON object must be str, bytes or bytearray, not NoneType")]).
Proof.
  exact (unexpected_decoding_failure (rt := Sample.runtime MoreSamples.not_a_string [])
           Sample.text []
           (mkExn TypeError "the JSON object must be str, bytes or bytearray, not NoneType")
           eq_refl eq_refl).
Defined.

(** A width of 10^400 behind the length "70". *)
Lemma too_large_field_is_unexpected_witness :
  check_package_oversized_payload
    (rt := Sample.runtime MoreSamples.huge_width Sample.numerals) Sample.text [] =
    (Ok (EvaluationError "Error processing package check: int too large to convert to float"),
     [(ERROR, "Error checking package: int too large to convert to float")]).
Proof.
  apply (too_large_field_is_unexpected
           (rt := Sample.runtime MoreSamples.huge_width Sample.numerals)
           Sample.text [] (PyStr "70", PyInt Sample.huge, PyInt 0, PyInt 0) 1
           (PyInt Sample.huge)).
  - reflexivity.
  - reflexivity.
  - vm_compute. reflexivity.
  - intros j u Hj Hu.
    destruct j as [ | j]; [ | lia]. simpl in Hu. injection Hu as <-. reflexivity.
Defined.

(** The length "70", the width true and the height 0 against the length
    70.0, the width 1 and no height. *)
Lemma same_coercion_same_response_witness :
  check_package_oversized
    (rt := MoreSamples.runtime_two MoreSamples.spelled MoreSamples.plain Sample.numerals)
    Sample.text [] =
  check_package_oversized
    (rt := MoreSamples.runtime_two MoreSamples.spelled MoreSamples.plain Sample.numerals)
    MoreSamples.other_text [].
Proof.
  apply (same_coercion_same_response
           (rt := MoreSamples.runtime_two MoreSamples.spelled MoreSamples.plain Sample.numerals)
           Sample.text MoreSamples.other_text
           (PyDict [("arguments",
                      PyDict [("length", PyStr "70"); ("width", PyBool true);
                              ("height", PyInt 0)])])
           (PyDict [("arguments",
                      PyDict [("length", PyFloat (float_of_Z 70)); ("width", PyInt 1)])])
           [("length", PyStr "70"); ("width", PyBool true); ("height", PyInt 0)]
           [("length", PyFloat (float_of_Z 70)); ("width", PyInt 1)] []
           eq_refl eq_refl eq_refl eq_refl).
  intros key [<- | [<- | [<- | [<- | []]]]]; reflexivity.
Defined.

(** A NaN length and a NaN weight beside a width of 10. *)
Lemma nan_passes_every_limit_witness :
  exists l',
    check_package_oversized_payload (rt := Sample.runtime MoreSamples.not_numbers [])
      Sample.text [] =
      (Ok (EvaluationResult false S754_nan (float_of_Z 10) (S754_zero false) S754_nan
             S754_nan ["Package meets all size and weight requirements"]), l').
Proof.
  pose proof (nan_passes_every_limit (rt := Sample.runtime MoreSamples.not_numbers [])
                Sample.text [] S754_nan (float_of_Z 10) (S754_zero false) S754_nan
                ltac:(vm_compute; reflexivity)) as W.
  cbv zeta in W.
  destruct W as (oversized & reasoning & l' & Hrun & _ & _ & _ & _ & Hall).
  destruct Hall as (-> & ->); try (vm_compute; reflexivity).
  exists l'. exact Hrun.
Defined.

(** The length -5, the width 0, the height -Infinity and the weight -1. *)
Lemma non_positive_fields_never_oversized_witness :
  exists l',
    check_package_oversized_payload (rt := Sample.runtime MoreSamples.below_zero [])
      Sample.text [] =
      (Ok (EvaluationResult false (float_of_Z (-5)) (S754_zero false) (S754_infinity true)
             (float_of_Z (-1)) (S754_infinity true)
             ["Package meets all size and weight requirements"]), l').
Proof.
  exact (non_positive_fields_never_oversized (rt := Sample.runtime MoreSamples.below_zero [])
           Sample.text [] (float_of_Z (-5)) (S754_zero false) (S754_infinity true)
           (float_of_Z (-1)) ltac:(vm_compute; reflexivity)
           eq_refl eq_refl eq_refl eq_refl).
Defined.

(** The reasoning at weight 6000 and length 70: two entries. *)
Lemma reasoning_shape_witness :
  exists reasoning l',
    check_package_oversized_payload (rt := Sample.runtime Sample.heavy_and_long [])
      Sample.text [] =
      (Ok (EvaluationResult true (float_of_Z 70) (float_of_Z 30) (float_of_Z 20)
             (float_of_Z 6000) (float_of_Z 120) reasoning), l') /\
    NoDup reasoning /\
    ~ In "Package meets all size and weight requirements" reasoning.
Proof.
  destruct (reasoning_shape (rt := Sample.runtime Sample.heavy_and_long [])
              Sample.text [] (float_of_Z 70) (float_of_Z 30) (float_of_Z 20)
              (float_of_Z 6000) ltac:(vm_compute; reflexivity))
    as (oversized & reasoning & l' & Hrun & Hnodup & _ & _ & Hover).
  assert (E : oversized = true).
  { vm_compute in Hrun. injection Hrun as Ho _ _. congruence. }
  subst oversized.
  exists reasoning, l'. split; [exact Hrun | ]. split; [exact Hnodup | ].
  apply Hover. reflexivity.
Defined.

(** Requests that differ in undeclared keys only. *)
Lemma declared_parameters_decide_the_response_witness :
  check_package_oversized
    (rt := MoreSamples.runtime_two MoreSamples.without_other_keys
             MoreSamples.with_other_keys [])
    Sample.text [] =
  check_package_oversized
    (rt := MoreSamples.runtime_two MoreSamples.without_other_keys
             MoreSamples.with_other_keys [])
    MoreSamples.other_text [].
Proof.
  apply (declared_parameters_decide_the_response
           (rt := MoreSamples.runtime_two MoreSamples.without_other_keys
                    MoreSamples.with_other_keys [])
           Sample.text MoreSamples.other_text
           (PyDict [("arguments", PyDict [("length", PyInt 70)])])
           (PyDict [("arguments",
                      PyDict [("colour", PyStr "red"); ("length", PyInt 70);
                              ("depth", PyInt 3)])])
           [("length", PyInt 70)]
           [("colour", PyStr "red"); ("length", PyInt 70); ("depth", PyInt 3)] []
           eq_refl eq_refl eq_refl eq_refl).
  intros p [<- | [<- | [<- | [<- | []]]]]; reflexivity.
Defined.

(** The declared property height, set to null. *)
Lemma every_declared_parameter_is_read_witness :
  propertyType (new_ToolProperty "height" "number" "The height of the package in inches.")
    = "number" /\
  check_package_oversized_payload (rt := Sample.runtime MoreSamples.null_height [])
    Sample.text [] =
    (Ok (EvaluationError "Invalid input: All dimensions and weight must be numeric values."), []).
Proof.
  apply (every_declared_parameter_is_read (rt := Sample.runtime MoreSamples.null_height [])
           (new_ToolProperty "height" "number" "The height of the package in inches.")
           Sample.text []).
  - right; right; left; reflexivity.
  - reflexivity.
Defined.

(** The ints 70, 30, 20 and 6000: a total of 120, too heavy and too long. *)
Lemma integer_fields_follow_integer_arithmetic_witness :
  exists reasoning l',
    check_package_oversized_payload (rt := Sample.runtime Sample.heavy_and_long [])
      Sample.text [] =
      (Ok (EvaluationResult true (float_of_Z 70) (float_of_Z 30) (float_of_Z 20)
             (float_of_Z 6000) (float_of_Z 120) reasoning), l') /\
    In "Weight (6000.0) is >= 5000 grams" reasoning /\
    In "Length (70.0) is > 60 inches" reasoning /\
    ~ In "Total dimensions (120.0) is > 150 inches" reasoning.
Proof.
  destruct (integer_fields_follow_integer_arithmetic
              (rt := Sample.runtime Sample.heavy_and_long []) Sample.text []
              (PyDict [("arguments",
                         PyDict [("length", PyInt 70); ("width", PyInt 30);
                                 ("height", PyInt 20); ("weight", PyInt 6000)])])
              [("length", PyInt 70); ("width", PyInt 30); ("height", PyInt 20);
               ("weight", PyInt 6000)]
              70 30 20 6000 eq_refl eq_refl eq_refl eq_refl eq_refl eq_refl
              ltac:(vm_compute; discriminate) ltac:(vm_compute; discriminate)
              ltac:(vm_compute; discriminate) ltac:(vm_compute; reflexivity))
    as (oversized & reasoning & l' & Hrun & Hover & Hwt & Hl & _ & _ & Ht).
  assert (E : oversized = true) by (apply Hover; lia).
  subst oversized.
  exists reasoning, l'. split; [exact Hrun | ].
  split; [apply Hwt; lia | ]. split; [apply Hl; lia | ].
  intros Hin. apply Ht in Hin. lia.
Defined.

(** ** The total and the exact sum *)

Section ExactSum.

Context {rt : Runtime}.

(** The float of an integer of at most 53 bits stands for that integer. *)
Lemma has_value_float_of_Z (n : Z) :
  (Z.abs n < 2 ^ 53)%Z -> has_value (float_of_Z n) (inject_Z n).
Proof.
  intros H.
  assert (V : forall s p, (Zpos p < 2 ^ 53)%Z ->
                          has_value (normal s p) (inject_Z (signed s p))).
  { intros s p Hp. pose proof (IntegerFacts.digits_le_53 p Hp) as D.
    unfold has_value, normal. cbn [exact_value].
    rewrite IntegerFacts.signed_shl, inject_Z_mult.
    rewrite Zpower_Qpower by lia.
    rewrite <- Qmult_assoc, <- Qpower_plus by discriminate.
    replace (Z.of_nat (53 - Pos.to_nat (digits2_pos p)) + (Zpos (digits2_pos p) - 53))%Z
      with 0%Z by lia.
    cbn [Qpower]. apply Qmult_1_r. }
  destruct n as [ | p | p].
  - unfold has_value. cbn. reflexivity.
  - rewrite (IntegerFacts.float_of_Z_pos p) by lia. apply (V false p). lia.
  - rewrite (IntegerFacts.float_of_Z_neg p) by lia. apply (V true p). lia.
Qed.

Lemma arguments_of_get (content : pyval) (args : list (string * pyval)) :
  arguments_of content = Some args ->
  py_get content "arguments" (PyDict []) = Ok (PyDict args).
Proof.
  unfold arguments_of, py_get. intros H.
  destruct content as [ | b | n | x | s | items | top]; try discriminate H.
  destruct (lookup "arguments" top) as [[ | b | n | x | s | items | entries] | ];
    try discriminate H; injection H as <-; reflexivity.
Qed.

(** C7, amended.  With every missing key of length, width, height, weight
    read as zero and the fields coerced, the evaluation succeeds, the
    result echoes the coerced dimensions, and [total_dimensions] is their
    sum in float arithmetic, [(length + width) + height] with each addition
    rounded.  When the coerced dimensions are integers of magnitude at most
    2^51, that float stands for the exact sum of the three integers. *)
Theorem C7_total_is_float_sum
  (context : string) (l : log) (content : pyval) (args : list (string * pyval))
  (length width height weight : float) :
  json_loads context = Ok content ->
  arguments_of content = Some args ->
  field_or_zero args "length" = Ok length ->
  field_or_zero args "width" = Ok width ->
  field_or_zero args "height" = Ok height ->
  field_or_zero args "weight" = Ok weight ->
  exists payload l',
    check_package_oversized_payload context l = (Ok payload, l') /\
    is_result payload /\
    field "length" payload = Some (PyFloat length) /\
    field "width" payload = Some (PyFloat width) /\
    field "height" payload = Some (PyFloat height) /\
    field "total_dimensions" payload = Some (PyFloat (fadd (fadd length width) height)) /\
    (forall nl nw nh : Z,
       length = float_of_Z nl -> width = float_of_Z nw -> height = float_of_Z nh ->
       (Z.abs nl <= 2 ^ 51)%Z -> (Z.abs nw <= 2 ^ 51)%Z -> (Z.abs nh <= 2 ^ 51)%Z ->
       field "total_dimensions" payload = Some (PyFloat (float_of_Z (nl + nw + nh))) /\
       has_value (float_of_Z (nl + nw + nh)) (inject_Z (nl + nw + nh))).
Proof.
  intros Hdoc Hargs Hl Hw Hh Hwt.
  pose proof (coerced_fields_args context content args _ _ _ _ Hdoc
                (arguments_of_get content args Hargs) Hl Hw Hh Hwt) as H.
  eexists; eexists. split; [apply (payload_success context l _ _ _ _ H) | ].
  split; [unfold is_result; repeat eexists | ].
  split; [reflexivity | ]. split; [reflexivity | ]. split; [reflexivity | ].
  split; [reflexivity | ].
  intros nl nw nh -> -> -> Bl Bw Bh.
  assert (P51 : (2 ^ 51 = 2251799813685248)%Z) by reflexivity.
  assert (P53 : (2 ^ 53 = 9007199254740992)%Z) by reflexivity.
  rewrite P51 in Bl, Bw, Bh.
  assert (Al : (Z.abs nl < 2 ^ 53)%Z) by (rewrite P53; lia).
  assert (Aw : (Z.abs nw < 2 ^ 53)%Z) by (rewrite P53; lia).
  assert (Ah : (Z.abs nh < 2 ^ 53)%Z) by (rewrite P53; lia).
  assert (Alw : (Z.abs (nl + nw) < 2 ^ 53)%Z) by (rewrite P53; lia).
  assert (At : (Z.abs (nl + nw + nh) < 2 ^ 53)%Z) by (rewrite P53; lia).
  split; [ | apply has_value_float_of_Z, At].
  cbn [field EvaluationResult lookup String.eqb Ascii.eqb Bool.eqb].
  rewrite (IntegerFacts.fadd_exact nl nw Al Aw Alw).
  rewrite (IntegerFacts.fadd_exact (nl + nw) nh Alw Ah At). reflexivity.
Qed.

End ExactSum.

(** C7, amended, at the dimensions 70, 30 and 20: the total is 120. *)
Lemma C7_witness :
  exists payload l',
    check_package_oversized_payload (rt := Sample.runtime Sample.long [])
      Sample.text [] = (Ok payload, l') /\
    field "total_dimensions" payload = Some (PyFloat (float_of_Z 120)) /\
    has_value (float_of_Z 120) (inject_Z 120).
Proof.
  destruct (C7_total_is_float_sum (rt := Sample.runtime Sample.long [])
              Sample.text []
              (PyDict [("arguments",
                         PyDict [("length", PyInt 70); ("width", PyInt 30);
                                 ("height", PyInt 20); ("weight", PyInt 2000)])])
              [("length", PyInt 70); ("width", PyInt 30); ("height", PyInt 20);
               ("weight", PyInt 2000)]
              (float_of_Z 70) (float_of_Z 30) (float_of_Z 20) (float_of_Z 2000)
              eq_refl eq_refl eq_refl eq_refl eq_refl eq_refl)
    as (payload & l' & Hrun & _ & _ & _ & _ & _ & Hexact).
  destruct (Hexact 70%Z 30%Z 20%Z eq_refl eq_refl eq_refl
              ltac:(vm_compute; discriminate) ltac:(vm_compute; discriminate)
              ltac:(vm_compute; discriminate)) as (Htotal & Hvalue).
  exists payload, l'. split; [exact Hrun | ]. split; [exact Htotal | exact Hvalue].
Defined.

(** C7 as stated fails at the ints 2^53 - 1, 4 and -(2^53 - 147).  Each
    coerces to the float that stands for it and their sum is 150, but the
    first addition rounds 2^53 + 3 to 2^53 + 4, so that the total is 151.0
    and the reason of the total is reported for a sum that is not above
    150. *)
Lemma C7_counterexample :
  coerced_fields (rt := Sample.runtime MoreSamples.cancelling []) Sample.text
    = Ok (float_of_Z (2 ^ 53 - 1), float_of_Z 4, float_of_Z (- (2 ^ 53 - 147)),
          S754_zero false) /\
  has_value (float_of_Z (2 ^ 53 - 1)) (inject_Z (2 ^ 53 - 1)) /\
  has_value (float_of_Z 4) (inject_Z 4) /\
  has_value (float_of_Z (- (2 ^ 53 - 147))) (inject_Z (- (2 ^ 53 - 147))) /\
  Qeq (inject_Z (2 ^ 53 - 1) + inject_Z 4 + inject_Z (- (2 ^ 53 - 147))) (inject_Z 150) /\
  fst (check_package_oversized_payload (rt := Sample.runtime MoreSamples.cancelling [])
         Sample.text []) =
    Ok (EvaluationResult true (float_of_Z (2 ^ 53 - 1)) (float_of_Z 4)
          (float_of_Z (- (2 ^ 53 - 147))) (S754_zero false) (float_of_Z 151)
          [length_reason (rt := Sample.runtime MoreSamples.cancelling [])
             (float_of_Z (2 ^ 53 - 1));
           total_reason (rt := Sample.runtime MoreSamples.cancelling []) (float_of_Z 151)]) /\
  has_value (float_of_Z 151) (inject_Z 151) /\
  ~ has_value (float_of_Z 151) (inject_Z 150).
Proof.
  split; [vm_compute; reflexivity | ].
  split; [vm_compute; reflexivity | ].
  split; [vm_compute; reflexivity | ].
  split; [vm_compute; reflexivity | ].
  split; [vm_compute; reflexivity | ].
  split; [vm_compute; reflexivity | ].
  split; [vm_compute; reflexivity | ].
  intros H. vm_compute in H. discriminate H.
Qed.
